(** * Tool dispatch layer of the course chatbot: [backend/search_tools.py]

    A shallow embedding of the three classes of the module
    ([CourseSearchTool], [CourseOutlineTool], [ToolManager]) together with
    the properties the specification states about them.

    Conventions of the embedding:
    - a Python object with mutable attributes is a record, and a method that
      assigns to [self] returns the updated record next to its result;
    - a call that may raise returns an [outcome];
    - the vector store is an external collaborator, taken as a record of
      its three query methods.  It is read-only during one tool call, so
      each method is a function of its arguments;
    - [print] writes to the console only and is not modelled. *)

From stdpp Require Import gmap strings list pretty.

(** ** Python values and control outcomes *)

(** Values that reach the tools as keyword arguments. *)
Inductive pyval :=
  | PNone
  | PStr (s : string)
  | PInt (n : Z).

(** [bool(v)]: the test of [if v:]. *)
Definition truthy (v : pyval) : bool :=
  match v with
  | PNone => false
  | PStr s => negb (String.eqb s "")
  | PInt n => negb (Z.eqb n 0)
  end.

(** [f"{v}"]: the text an f-string interpolates for [v]. *)
Definition fmt (v : pyval) : string :=
  match v with
  | PNone => "None"
  | PStr s => s
  | PInt n => pretty n
  end.

(** Truth value of an optional string ([None] and [""] are false). *)
Definition str_truthy (o : option string) : bool :=
  match o with
  | Some s => negb (String.eqb s "")
  | None => false
  end.

Inductive exn :=
  | TypeError (msg : string)
  | ValueError (msg : string)
  | StoreException (msg : string).

Inductive outcome (A : Type) :=
  | Return (a : A)
  | Raise (e : exn).
Arguments Return {A} a.
Arguments Raise {A} e.

Definition NL : string := String (Ascii.ascii_of_nat 10) EmptyString.

(** [sep.join(parts)] *)
Definition join (sep : string) (parts : list string) : string :=
  String.concat sep parts.

(** ** Data model *)

(** Metadata dict of one search hit; an absent key is [None]. *)
Module Meta.
Record t := mk {
  course_title : option string;
  lesson_number : option Z }.
End Meta.

(** The citation dict built next to the answer text. *)
Module Source.
Record t := mk {
  display_text : string;
  course_title : string;
  lesson_number : option Z;
  lesson_link : option string }.
End Source.

Module Lesson.
Record t := mk {
  lesson_number : option Z;
  lesson_title : option string;
  lesson_link : option string }.
End Lesson.

(** A course-catalog dict; [empty] is the dict [{}]. *)
Module Course.
Record t := mk {
  title : option string;
  course_link : option string;
  instructor : option string;
  lessons : option (list Lesson.t) }.

Definition empty : t := mk None None None None.

(** [bool(d)] of a dict: true when it has at least one key. *)
Definition nonempty (c : t) : bool :=
    match title c, course_link c, instructor c, lessons c with
    | None, None, None, None => false
    | _, _, _, _ => true
    end.
End Course.

Global Instance course_inhabited : Inhabited Course.t := populate Course.empty.

Module SearchResults.
Record t := mk {
  documents : list string;
  metadata : list Meta.t;
  error : option string }.

(** Modelled from the spec: [SearchResults.is_empty] is defined in
      [vector_store], which is not part of the sources.  The spec calls a
      result empty when it has no pairs; documents and metadata are index
      aligned, so that is a result without documents. *)
Definition is_empty (r : t) : bool :=
    match documents r with
    | [] => true
    | _ :: _ => false
    end.

(** The index alignment the data model requires of a result. *)
Definition aligned (r : t) : Prop :=
    length (documents r) = length (metadata r).
End SearchResults.

(** The store collaborator, through the three methods the tools call. *)
Record VectorStore := {
  search : pyval -> pyval -> pyval -> outcome SearchResults.t;
  get_all_courses_metadata : outcome (list Course.t);
  _resolve_course_name : pyval -> outcome (option string) }.

(** Keyword arguments of a call. *)
Abbreviation kwargs := (gmap string pyval).

(** Binding of [**kwargs] to a signature: a keyword outside the declared
    parameter names makes the call raise [TypeError]. *)
Definition accepts (params : list string) (kw : kwargs) : bool :=
  bool_decide (dom kw ⊆ (list_to_set params : gset string)).

(** A keyword argument named like a parameter that the call already binds
    by position gives the parameter two values: the call raises
    [TypeError]. *)
Definition rebinds_parameter (bound : list string) (kw : kwargs) : bool :=
  existsb (λ p, bool_decide (is_Some (kw !! p))) bound.

(** The dict returned by [get_tool_definition]. *)
Module ToolDefinition.
Record property := mk_property {
  type : string;
  prop_description : string }.

Record t := mk {
  name : option string;
  description : string;
  properties : list (string * property);
  required : list string }.
End ToolDefinition.

(** ** [class CourseSearchTool] *)

Module CourseSearchTool.

Record t := mk {
  store : VectorStore;
  last_sources : list Source.t }.

Definition __init__ (vector_store : VectorStore) : t :=
  mk vector_store [].

Definition get_tool_definition (self : t) : ToolDefinition.t :=
  ToolDefinition.mk
    (Some "search_course_content")
    "Search course materials with smart course name matching and lesson filtering"
    [ ("query", ToolDefinition.mk_property "string"
         "What to search for in the course content");
      ("course_name", ToolDefinition.mk_property "string"
         "Course title (partial matches work, e.g. 'MCP', 'Introduction')");
      ("lesson_number", ToolDefinition.mk_property "integer"
         "Specific lesson number to search within (e.g. 1, 2, 3)") ]
    [ "query" ].

(** The loop of [_get_course_metadata]: the first catalog entry whose
    title is [course_title], the empty dict when there is none. *)
Fixpoint first_course_titled (course_title : string)
    (all_courses : list Course.t) : Course.t :=
  match all_courses with
  | [] => Course.empty
  | course_meta :: rest =>
      if bool_decide (Course.title course_meta = Some course_title)
      then course_meta
      else first_course_titled course_title rest
  end.

(** [try: ... except Exception: return {}] *)
Definition _get_course_metadata (self : t) (course_title : string) : Course.t :=
  match get_all_courses_metadata (store self) with
  | Return all_courses => first_course_titled course_title all_courses
  | Raise _ => Course.empty
  end.

(** The inner loop of [_format_results]: the link of the first lesson
    numbered [lesson_num]; the loop stops there ([break]). *)
Fixpoint first_lesson_link (lessons : list Lesson.t) (lesson_num : Z)
    : option string :=
  match lessons with
  | [] => None
  | lesson :: rest =>
      if bool_decide (Lesson.lesson_number lesson = Some lesson_num)
      then Lesson.lesson_link lesson
      else first_lesson_link rest lesson_num
  end.

(** The three locals the loop of [_format_results] updates. *)
Record locals := mk_locals {
  formatted : list string;
  sources : list Source.t;
  course_lessons_cache : gmap string Course.t }.

(** One iteration of [for doc, meta in zip(...)]. *)
Definition format_row (self : t) (st : locals) (row : string * Meta.t) : locals :=
  let '(doc, meta) := row in
  let course_title := default "unknown" (Meta.course_title meta) in
  let lesson_num := Meta.lesson_number meta in
  let header := "[" +:+ course_title in
  let header :=
    match lesson_num with
    | Some n => header +:+ " - Lesson " +:+ pretty n
    | None => header
    end in
  let header := header +:+ "]" in
  let '(lesson_link, cache) :=
    match lesson_num with
    | Some n =>
        if negb (String.eqb course_title "")
           && negb (String.eqb course_title "unknown")
        then
          let cache :=
            match course_lessons_cache st !! course_title with
            | None =>
                <[course_title := _get_course_metadata self course_title]>
                  (course_lessons_cache st)
            | Some _ => course_lessons_cache st
            end in
          (* the key is in the cache by now: the subscript cannot fail *)
          let cached := cache !!! course_title in
          if Course.nonempty cached
          then (first_lesson_link (default [] (Course.lessons cached)) n, cache)
          else (None, cache)
        else (None, course_lessons_cache st)
    | None => (None, course_lessons_cache st)
    end in
  let source_obj :=
    Source.mk
      match lesson_num with
      | None => course_title
      | Some n => course_title +:+ " - Lesson " +:+ pretty n
      end
      course_title lesson_num lesson_link in
  mk_locals (formatted st ++ [header +:+ NL +:+ doc])
            (sources st ++ [source_obj])
            cache.

Definition _format_results (self : t) (results : SearchResults.t) : string * t :=
  let st :=
    fold_left (format_row self)
      (zip (SearchResults.documents results) (SearchResults.metadata results))
      (mk_locals [] [] ∅) in
  (join (NL +:+ NL) (formatted st), mk (store self) (sources st)).

Definition execute (self : t) (query course_name lesson_number : pyval)
    : outcome string * t :=
  match search (store self) query course_name lesson_number with
  | Raise e => (Raise e, self)
  | Return results =>
      if str_truthy (SearchResults.error results)
      then (Return (default "" (SearchResults.error results)), self)
      else if SearchResults.is_empty results
      then
        let filter_info := "" in
        let filter_info :=
          if truthy course_name
          then filter_info +:+ " in course '" +:+ fmt course_name +:+ "'"
          else filter_info in
        let filter_info :=
          if truthy lesson_number
          then filter_info +:+ " in lesson " +:+ fmt lesson_number
          else filter_info in
        (Return ("No relevant content found" +:+ filter_info +:+ "."), self)
      else
        let '(text, self) := _format_results self results in
        (Return text, self)
  end.

(** The call [execute] receives with keyword arguments [kw]: [query] is
    required, the two filters default to [None]. *)
Definition call (self : t) (kw : kwargs) : outcome string * t :=
  if negb (accepts ["query"; "course_name"; "lesson_number"] kw)
  then (Raise (TypeError "execute() got an unexpected keyword argument"), self)
  else
    match kw !! "query" with
    | None =>
        (Raise (TypeError "execute() missing 1 required positional argument: 'query'"),
         self)
    | Some query =>
        execute self query
          (default PNone (kw !! "course_name"))
          (default PNone (kw !! "lesson_number"))
    end.

End CourseSearchTool.

(** ** [class CourseOutlineTool] *)

Module CourseOutlineTool.

Record t := mk {
  store : VectorStore;
  last_sources : list Source.t }.

Definition __init__ (vector_store : VectorStore) : t :=
  mk vector_store [].

Definition get_tool_definition (self : t) : ToolDefinition.t :=
  ToolDefinition.mk
    (Some "get_course_outline")
    "Get structured course outline with lessons, instructor, and links"
    [ ("course_name", ToolDefinition.mk_property "string"
         "Course title to get outline for (partial matches work). Leave empty to get all courses.") ]
    [].

(** [lesson.get('lesson_number', '?')] as an f-string shows it. *)
Definition lesson_num_text (lesson : Lesson.t) : string :=
  match Lesson.lesson_number lesson with
  | Some n => pretty n
  | None => "?"
  end.

(** One iteration of the lesson loop of [_format_single_course]. *)
Definition lesson_line (lines : list string) (lesson : Lesson.t) : list string :=
  let lesson_num := lesson_num_text lesson in
  let lesson_title := default "Untitled" (Lesson.lesson_title lesson) in
  let lesson_link := default "" (Lesson.lesson_link lesson) in
  if negb (String.eqb lesson_link "")
  then lines ++ ["- Lesson " +:+ lesson_num +:+ ": [" +:+ lesson_title
                   +:+ "](" +:+ lesson_link +:+ ")"]
  else lines ++ ["- Lesson " +:+ lesson_num +:+ ": " +:+ lesson_title].

Definition _format_single_course (self : t) (course : Course.t) : string * t :=
  let lines := [] in
  let title := default "Unknown Course" (Course.title course) in
  let lines := lines ++ ["## " +:+ title] in
  let lines :=
    if str_truthy (Course.course_link course)
    then lines ++ ["**Course Link:** " +:+ default "" (Course.course_link course)]
    else lines in
  let lines :=
    if str_truthy (Course.instructor course)
    then lines ++ ["**Instructor:** " +:+ default "" (Course.instructor course)]
    else lines in
  let lessons := default [] (Course.lessons course) in
  let lines :=
    match lessons with
    | _ :: _ => fold_left lesson_line lessons (lines ++ [NL +:+ "**Lessons:**"])
    | [] => lines ++ [NL +:+ "*No lessons found for this course.*"]
    end in
  (join NL lines,
   mk (store self) [Source.mk title title None (Course.course_link course)]).

(** One entry of the list comprehension over [lessons[:3]]. *)
Definition lesson_topic (l : Lesson.t) : string :=
  "L" +:+ lesson_num_text l +:+ ": " +:+ default "Untitled" (Lesson.lesson_title l).

(** One iteration of the course loop of [_format_all_courses], on the
    pair of locals [lines] and [sources]. *)
Definition course_summary (acc : list string * list Source.t) (course : Course.t)
    : list string * list Source.t :=
  let '(lines, sources) := acc in
  let title := default "Unknown Course" (Course.title course) in
  let instructor := default "Unknown" (Course.instructor course) in
  let lessons := default [] (Course.lessons course) in
  let course_link := Course.course_link course in
  let lines := lines ++ ["## " +:+ title] in
  let lines :=
    if str_truthy course_link
    then lines ++ ["**Link:** " +:+ default "" course_link]
    else lines in
  let lines := lines ++ ["**Instructor:** " +:+ instructor] in
  let lines := lines ++ ["**Total Lessons:** " +:+ pretty (length lessons)] in
  let sources := sources ++ [Source.mk title title None course_link] in
  let lines :=
    match lessons with
    | _ :: _ =>
        let lesson_titles := lesson_topic <$> take 3 lessons in
        let lines := lines ++ ["**Topics:** " +:+ join ", " lesson_titles] in
        if bool_decide (3 < length lessons)
        then lines ++ ["*... and " +:+ pretty (length lessons - 3) +:+ " more lessons*"]
        else lines
    | [] => lines
    end in
  (lines ++ [""], sources).

Definition _format_all_courses (self : t) (courses : list Course.t) : string * t :=
  match courses with
  | [] => ("No courses available.", self)
  | _ :: _ =>
      let '(lines, sources) :=
        fold_left course_summary courses (["# Available Courses" +:+ NL], []) in
      (join NL lines, mk (store self) sources)
  end.

(** The loop of [execute] that looks for the resolved title; it returns
    from [execute] at the first course with that title. *)
Fixpoint first_titled (resolved_title : string) (all_courses : list Course.t)
    : option Course.t :=
  match all_courses with
  | [] => None
  | course :: rest =>
      if bool_decide (Course.title course = Some resolved_title)
      then Some course
      else first_titled resolved_title rest
  end.

Definition execute (self : t) (course_name : pyval) : outcome string * t :=
  match get_all_courses_metadata (store self) with
  | Raise e => (Raise e, self)
  | Return all_courses =>
      match all_courses with
      | [] => (Return "No courses available in the knowledge base.", self)
      | _ :: _ =>
          if truthy course_name
          then
            match _resolve_course_name (store self) course_name with
            | Raise e => (Raise e, self)
            | Return resolved_title =>
                if negb (str_truthy resolved_title)
                then (Return ("No course found matching '" +:+ fmt course_name +:+ "'."),
                      self)
                else
                  let resolved_title := default "" resolved_title in
                  match first_titled resolved_title all_courses with
                  | Some course =>
                      let '(text, self) := _format_single_course self course in
                      (Return text, self)
                  | None =>
                      (Return ("Course metadata not found for '" +:+ resolved_title
                               +:+ "'."), self)
                  end
            end
          else
            let '(text, self) := _format_all_courses self all_courses in
            (Return text, self)
      end
  end.

(** The call [execute] receives with keyword arguments [kw]; [course_name]
    defaults to [None]. *)
Definition call (self : t) (kw : kwargs) : outcome string * t :=
  if negb (accepts ["course_name"] kw)
  then (Raise (TypeError "execute() got an unexpected keyword argument"), self)
  else execute self (default PNone (kw !! "course_name")).

End CourseOutlineTool.

(** ** [class Tool] and its instances *)

(** A subclass of [Tool] other than the two above: its definition, its
    [execute] as a function of the keyword arguments and of the
    [last_sources] attribute ([None] when the object has no such
    attribute), and the attribute itself. *)
Module OtherTool.
Record t := mk {
  definition : ToolDefinition.t;
  run : kwargs -> option (list Source.t) -> outcome string * option (list Source.t);
  last_sources : option (list Source.t) }.
End OtherTool.

Inductive Tool :=
  | Search (o : CourseSearchTool.t)
  | Outline (o : CourseOutlineTool.t)
  | Other (o : OtherTool.t).

Definition get_tool_definition (tool : Tool) : ToolDefinition.t :=
  match tool with
  | Search o => CourseSearchTool.get_tool_definition o
  | Outline o => CourseOutlineTool.get_tool_definition o
  | Other o => OtherTool.definition o
  end.

(** [tool.execute] called with the keyword arguments [kw]; the tool is
    returned as the call leaves it. *)
Definition execute (tool : Tool) (kw : kwargs) : outcome string * Tool :=
  match tool with
  | Search o => let '(r, o) := CourseSearchTool.call o kw in (r, Search o)
  | Outline o => let '(r, o) := CourseOutlineTool.call o kw in (r, Outline o)
  | Other o =>
      let '(r, s) := OtherTool.run o kw (OtherTool.last_sources o) in
      (r, Other (OtherTool.mk (OtherTool.definition o) (OtherTool.run o) s))
  end.

(** [tool.last_sources] where [hasattr(tool, 'last_sources')], else [None]. *)
Definition last_sources (tool : Tool) : option (list Source.t) :=
  match tool with
  | Search o => Some (CourseSearchTool.last_sources o)
  | Outline o => Some (CourseOutlineTool.last_sources o)
  | Other o => OtherTool.last_sources o
  end.

(** [tool.last_sources = v] *)
Definition set_last_sources (tool : Tool) (v : list Source.t) : Tool :=
  match tool with
  | Search o => Search (CourseSearchTool.mk (CourseSearchTool.store o) v)
  | Outline o => Outline (CourseOutlineTool.mk (CourseOutlineTool.store o) v)
  | Other o => Other (OtherTool.mk (OtherTool.definition o) (OtherTool.run o) (Some v))
  end.

(** ** Python's insertion-ordered [dict] with string keys *)

Section dict.
Context {V : Type}.

(** [d[k]] / [k in d] *)
Fixpoint dict_get (k : string) (d : list (string * V)) : option V :=
  match d with
  | [] => None
  | (k', v) :: rest => if decide (k = k') then Some v else dict_get k rest
  end.

(** [d[k] = v]: an existing key keeps its position, a new one goes last. *)
Fixpoint dict_set (k : string) (v : V) (d : list (string * V)) : list (string * V) :=
  match d with
  | [] => [(k, v)]
  | (k', v') :: rest =>
      if decide (k = k') then (k, v) :: rest else (k', v') :: dict_set k v rest
  end.

Definition keys (d : list (string * V)) : list string := fst <$> d.
Definition values (d : list (string * V)) : list V := snd <$> d.
End dict.

(** ** [class ToolManager] *)

(** [self.tools] maps a name to a tool object.  The operations below reach
    a tool only through the registry, so the registry holds the tools
    themselves, in insertion order. *)
Module ToolManager.

Record t := mk { tools : list (string * Tool) }.

Definition __init__ : t := mk [].

Definition register_tool (self : t) (tool : Tool) : outcome t :=
  let tool_def := get_tool_definition tool in
  let tool_name := ToolDefinition.name tool_def in
  if negb (str_truthy tool_name)
  then Raise (ValueError "Tool must have a 'name' in its definition")
  else Return (mk (dict_set (default "" tool_name) tool (tools self))).

Definition get_tool_definitions (self : t) : list ToolDefinition.t :=
  get_tool_definition <$> values (tools self).

(** The signature is [execute_tool(self, tool_name, **kwargs)]: a keyword
    argument named like one of the two parameters cannot be collected into
    [kwargs], and the call raises [TypeError] (multiple values for the
    argument) before the body runs. *)
Definition execute_tool (self : t) (tool_name : string) (kw : kwargs)
    : outcome string * t :=
  if rebinds_parameter ["self"; "tool_name"] kw
  then (Raise (TypeError "execute_tool() got multiple values for argument"), self)
  else
    match dict_get tool_name (tools self) with
    | None => (Return ("Tool '" +:+ tool_name +:+ "' not found"), self)
    | Some tool =>
        let '(r, tool) := execute tool kw in
        (r, mk (dict_set tool_name tool (tools self)))
    end.

(** The loop of [get_last_sources] over [self.tools.values()]. *)
Fixpoint first_last_sources (vs : list Tool) : list Source.t :=
  match vs with
  | [] => []
  | tool :: rest =>
      match last_sources tool with
      | Some (s :: l) => s :: l
      | _ => first_last_sources rest
      end
  end.

Definition get_last_sources (self : t) : list Source.t :=
  first_last_sources (values (tools self)).

Definition reset_tool (tool : Tool) : Tool :=
  match last_sources tool with
  | Some _ => set_last_sources tool []
  | None => tool
  end.

Definition reset_sources (self : t) : t :=
  mk (prod_map id reset_tool <$> tools self).

(** Registering a sequence of tools one after the other; the first
    failing registration ends the sequence with its exception. *)
Fixpoint register_all (self : t) (ts : list Tool) : outcome t :=
  match ts with
  | [] => Return self
  | tool :: rest =>
      match register_tool self tool with
      | Return self => register_all self rest
      | Raise e => Raise e
      end
  end.

End ToolManager.

(** * Specification-level descriptions *)

(** The course title a search hit is shown under. *)
Definition row_title (m : Meta.t) : string :=
  default "unknown" (Meta.course_title m).

(** The label ["{title}"] or ["{title} - Lesson {n}"]. *)
Definition row_label (m : Meta.t) : string :=
  match Meta.lesson_number m with
  | None => row_title m
  | Some n => row_title m +:+ " - Lesson " +:+ pretty n
  end.

(** A block of the answer: the header line, then the document text. *)
Definition block (row : string * Meta.t) : string :=
  ("[" +:+ row_label row.2 +:+ "]") +:+ NL +:+ row.1.

(** Whether [_format_results] looks a lesson link up for a title. *)
Definition looked_up (course_title : string) : bool :=
  negb (String.eqb course_title "") && negb (String.eqb course_title "unknown").

(** The lesson link of a hit with one catalog fetch per row, no cache. *)
Definition unmemoized_link (self : CourseSearchTool.t) (m : Meta.t) : option string :=
  match Meta.lesson_number m with
  | Some n =>
      if looked_up (row_title m)
      then
        let course := CourseSearchTool._get_course_metadata self (row_title m) in
        if Course.nonempty course
        then CourseSearchTool.first_lesson_link (default [] (Course.lessons course)) n
        else None
      else None
  | None => None
  end.

Definition source_of (self : CourseSearchTool.t) (m : Meta.t) : Source.t :=
  Source.mk (row_label m) (row_title m) (Meta.lesson_number m) (unmemoized_link self m).

(** The catalog lookup the spec describes: the link of the lesson numbered
    [n] inside the course record titled [course_title]; none when the
    fetch raises or when the course or the lesson is not found. *)
Definition catalog_link (st : VectorStore) (course_title : string) (n : Z)
    : option string :=
  match get_all_courses_metadata st with
  | Raise _ => None
  | Return all_courses =>
      match List.find (λ c, bool_decide (Course.title c = Some course_title))
              all_courses with
      | None => None
      | Some course =>
          match List.find (λ l, bool_decide (Lesson.lesson_number l = Some n))
                  (default [] (Course.lessons course)) with
          | None => None
          | Some lesson => Lesson.lesson_link lesson
          end
      end
  end.

(** The cache of one [_format_results] run holds what a fetch returns. *)
Definition cache_ok (self : CourseSearchTool.t) (cache : gmap string Course.t) : Prop :=
  ∀ k c, cache !! k = Some c → c = CourseSearchTool._get_course_metadata self k.




(** The name a tool registers under. *)
Definition tool_name (tool : Tool) : string :=
  default "" (ToolDefinition.name (get_tool_definition tool)).

Definition named (tool : Tool) : Prop :=
  str_truthy (ToolDefinition.name (get_tool_definition tool)) = true.

(** The distinct elements of a list, each at its first occurrence. *)
Fixpoint first_occurrences (l : list string) : list string :=
  match l with
  | [] => []
  | x :: l => x :: filter (λ y, y ≠ x) (first_occurrences l)
  end.

(** The last tool of a registration sequence carrying a given name. *)
Definition last_named (n : string) (ts : list Tool) : option Tool :=
  last (filter (λ t, tool_name t = n) ts).

(** A tool that currently reports sources. *)
Definition has_sources (tool : Tool) : bool :=
  match last_sources tool with
  | Some (_ :: _) => true
  | _ => false
  end.

(** The conditions under which a dispatched call is within the contract
    of the two course tools: the keyword arguments bind to the signature of
    [execute], and the store methods the tool calls outside a [try] return
    normally. *)
Definition well_called (tool : Tool) (kw : kwargs) : Prop :=
  match tool with
  | Search o =>
      accepts ["query"; "course_name"; "lesson_number"] kw = true
      ∧ is_Some (kw !! "query")
      ∧ ∀ q c l, ∃ r, search (CourseSearchTool.store o) q c l = Return r
  | Outline o =>
      accepts ["course_name"] kw = true
      ∧ (∃ cs, get_all_courses_metadata (CourseOutlineTool.store o) = Return cs)
      ∧ ∀ c, ∃ t, _resolve_course_name (CourseOutlineTool.store o) c = Return t
  | Other _ => False
  end.

(** ** Descriptions of the outline views *)

(** The citation the outline tool records for a course. *)
Definition course_source (course : Course.t) : Source.t :=
  Source.mk (default "Unknown Course" (Course.title course))
    (default "Unknown Course" (Course.title course))
    None (Course.course_link course).

(** The bullet of one lesson in the outline of a single course. *)
Definition lesson_bullet (lesson : Lesson.t) : string :=
  "- Lesson " +:+ CourseOutlineTool.lesson_num_text lesson +:+ ": "
  +:+ (if str_truthy (Lesson.lesson_link lesson)
       then "[" +:+ default "Untitled" (Lesson.lesson_title lesson) +:+ "]("
            +:+ default "" (Lesson.lesson_link lesson) +:+ ")"
       else default "Untitled" (Lesson.lesson_title lesson)).

(** The lines of the outline of a single course. *)
Definition course_outline (course : Course.t) : list string :=
  ["## " +:+ default "Unknown Course" (Course.title course)]
  ++ (if str_truthy (Course.course_link course)
      then ["**Course Link:** " +:+ default "" (Course.course_link course)]
      else [])
  ++ (if str_truthy (Course.instructor course)
      then ["**Instructor:** " +:+ default "" (Course.instructor course)]
      else [])
  ++ match default [] (Course.lessons course) with
     | [] => [NL +:+ "*No lessons found for this course.*"]
     | lessons => (NL +:+ "**Lessons:**") :: (lesson_bullet <$> lessons)
     end.

(** The lines of one course in the view of all courses. *)
Definition course_section (course : Course.t) : list string :=
  ["## " +:+ default "Unknown Course" (Course.title course)]
  ++ (if str_truthy (Course.course_link course)
      then ["**Link:** " +:+ default "" (Course.course_link course)]
      else [])
  ++ ["**Instructor:** " +:+ default "Unknown" (Course.instructor course);
      "**Total Lessons:** " +:+ pretty (length (default [] (Course.lessons course)))]
  ++ match default [] (Course.lessons course) with
     | [] => []
     | lessons =>
         ["**Topics:** "
          +:+ join ", " (CourseOutlineTool.lesson_topic <$> take 3 lessons)]
         ++ (if bool_decide (3 < length lessons)
             then ["*... and " +:+ pretty (length lessons - 3) +:+ " more lessons*"]
             else [])
     end
  ++ [""].

(** ** Descriptions of the registry *)

(** Keyword arguments that fit an advertised schema: every key is a
    declared property and every required property is present. *)
Definition conforms (d : ToolDefinition.t) (kw : kwargs) : bool :=
  accepts ((ToolDefinition.properties d).*1) kw
  && forallb (λ r, bool_decide (is_Some (kw !! r))) (ToolDefinition.required d).

(** The two tools of this module, as opposed to another [Tool] subclass. *)
Definition course_tool (tool : Tool) : bool :=
  match tool with
  | Search _ | Outline _ => true
  | Other _ => false
  end.

(** A registry whose names are distinct and in which every tool sits under
    the non-empty name of its own definition. *)
Definition registry_ok (self : ToolManager.t) : Prop :=
  NoDup (keys (ToolManager.tools self))
  ∧ Forall (λ kt : string * Tool, named kt.2 ∧ tool_name kt.2 = kt.1)
      (ToolManager.tools self).

(** The header and text of an answer block, from the citation's label. *)
Definition cited_block (doc : string) (src : Source.t) : string :=
  ("[" +:+ Source.display_text src +:+ "]") +:+ NL +:+ doc.

(** * Sample stores and registries *)

(** A store that answers every search with [r], serves [catalog] and
    resolves every name to [resolved]. *)
Definition fixed_store (r : SearchResults.t) (catalog : outcome (list Course.t))
    (resolved : option string) : VectorStore :=
  {| search := λ _ _ _, Return r;
     get_all_courses_metadata := catalog;
     _resolve_course_name := λ _, Return resolved |}.

Definition mcp_course : Course.t :=
  Course.mk (Some "MCP") (Some "https://example.com/mcp") (Some "Ada")
    (Some [ Lesson.mk (Some 1%Z) (Some "Intro") None;
            Lesson.mk (Some 2%Z) (Some "Protocol") (Some "https://example.com/mcp/2") ]).

(** A course whose title is the placeholder the search tool uses for a hit
    without a title. *)
Definition unknown_course : Course.t :=
  Course.mk (Some "unknown") None None
    (Some [ Lesson.mk (Some 1%Z) (Some "Intro") (Some "https://example.com/u/1") ]).

Definition mcp_hit : SearchResults.t :=
  SearchResults.mk ["Protocol details"] [Meta.mk (Some "MCP") (Some 2%Z)] None.

Definition two_hits : SearchResults.t :=
  SearchResults.mk ["Protocol details"; "Overview"]
    [Meta.mk (Some "MCP") (Some 2%Z); Meta.mk (Some "MCP") None] None.

Definition unknown_hit : SearchResults.t :=
  SearchResults.mk ["Welcome"] [Meta.mk (Some "unknown") (Some 1%Z)] None.

Definition no_hits : SearchResults.t := SearchResults.mk [] [] None.

Definition failed_search : SearchResults.t :=
  SearchResults.mk [] [] (Some "Search error: store unavailable").

(** A result whose error field is set to the empty string. *)
Definition blank_error : SearchResults.t := SearchResults.mk [] [] (Some "").

Definition mcp_store : VectorStore :=
  fixed_store mcp_hit (Return [mcp_course]) None.

Definition old_source : Source.t := Source.mk "Old" "Old" None None.

(** A registry holding the two course tools, as the application builds it. *)
Definition course_tools : ToolManager.t :=
  ToolManager.mk
    [ ("search_course_content", Search (CourseSearchTool.__init__ mcp_store));
      ("get_course_outline", Outline (CourseOutlineTool.__init__ mcp_store)) ].

(** A tool without the source-tracking attribute. *)
Definition plain_tool (n : option string) : Tool :=
  Other (OtherTool.mk (ToolDefinition.mk n "plain" [] [])
           (λ _ s, (Return "ok", s)) None).

(** A store whose catalog fetch raises. *)
Definition broken_store : VectorStore :=
  {| search := λ _ _ _, Return mcp_hit;
     get_all_courses_metadata := Raise (StoreException "catalog unavailable");
     _resolve_course_name := λ _, Return None |}.

(** A registry in which the first tool does not track sources, the second
    has none and the third has one. *)
Definition tracked_tools : ToolManager.t :=
  ToolManager.mk
    [ ("plain", plain_tool (Some "plain"));
      ("search_course_content", Search (CourseSearchTool.mk mcp_store []));
      ("get_course_outline", Outline (CourseOutlineTool.mk mcp_store [old_source])) ].

Definition rag_course : Course.t :=
  Course.mk (Some "RAG") None None
    (Some [ Lesson.mk (Some 0%Z) (Some "Welcome") None;
            Lesson.mk (Some 1%Z) (Some "Chunking") None;
            Lesson.mk (Some 2%Z) None None;
            Lesson.mk None (Some "Retrieval") (Some "https://example.com/rag/3");
            Lesson.mk (Some 4%Z) (Some "Evaluation") None ]).

(** * Properties *)

Lemma string_append_assoc (a b c : string) : (a +:+ b) +:+ c = a +:+ (b +:+ c).
Proof.
  induction a as [|x a IH]; [done|].
  change (String x ((a +:+ b) +:+ c) = String x (a +:+ (b +:+ c))).
  by rewrite IH.
Qed.

Lemma cache_ok_empty self : cache_ok self ∅.
Proof. intros k c H. by rewrite lookup_empty in H. Qed.

Lemma cache_ok_insert self cache k :
  cache_ok self cache →
  cache_ok self (<[k := CourseSearchTool._get_course_metadata self k]> cache).
Proof.
  intros Hok k' c. rewrite lookup_insert. case_decide; subst.
  - by intros [= <-].
  - apply Hok.
Qed.

(** One loop iteration appends the row's block and its unmemoized source,
    and keeps the cache faithful. *)
Lemma format_row_spec self st doc m :
  cache_ok self (CourseSearchTool.course_lessons_cache st) →
  ∃ cache,
    CourseSearchTool.format_row self st (doc, m)
    = CourseSearchTool.mk_locals
        (CourseSearchTool.formatted st ++ [block (doc, m)])
        (CourseSearchTool.sources st ++ [source_of self m])
        cache
    ∧ cache_ok self cache.
Proof.
  intros Hok. destruct m as [ct [n|]]; unfold CourseSearchTool.format_row,
    block, source_of, unmemoized_link, row_label, row_title, looked_up; simpl.
  - destruct (negb (default "unknown" ct =? "")%string
              && negb (default "unknown" ct =? "unknown")%string) eqn:Hlook.
    + destruct (CourseSearchTool.course_lessons_cache st !! default "unknown" ct)
        as [c|] eqn:Hc.
      * rewrite (lookup_total_correct _ _ _ Hc), <- (Hok _ _ Hc).
        exists (CourseSearchTool.course_lessons_cache st).
        destruct (Course.nonempty c); split; try done;
          by rewrite !string_append_assoc.
      * rewrite lookup_total_insert_eq.
        eexists. split; [|by apply cache_ok_insert].
        destruct (Course.nonempty _); by rewrite !string_append_assoc.
    + eexists. split; [|done]. by rewrite !string_append_assoc.
  - eexists. split; [|done]. done.
Qed.

(** The whole loop, by induction on the rows with the locals generalised. *)
Lemma format_rows_spec self rows : ∀ st,
  cache_ok self (CourseSearchTool.course_lessons_cache st) →
  ∃ cache,
    fold_left (CourseSearchTool.format_row self) rows st
    = CourseSearchTool.mk_locals
        (CourseSearchTool.formatted st ++ (block <$> rows))
        (CourseSearchTool.sources st ++ (source_of self <$> rows.*2))
        cache
    ∧ cache_ok self cache.
Proof.
  induction rows as [|[doc m] rows IH]; intros st Hok.
  - exists (CourseSearchTool.course_lessons_cache st).
    destruct st; simpl. by rewrite !app_nil_r.
  - destruct (format_row_spec self st doc m Hok) as (cache & Hrow & Hok').
    cbn [fold_left]. rewrite Hrow.
    destruct (IH (CourseSearchTool.mk_locals
                    (CourseSearchTool.formatted st ++ [block (doc, m)])
                    (CourseSearchTool.sources st ++ [source_of self m])
                    cache) Hok') as (cache' & Hrows & Hok'').
    exists cache'. rewrite Hrows. cbn. by rewrite <- !app_assoc.
Qed.

Lemma format_results_spec self r :
  CourseSearchTool._format_results self r
  = (join (NL +:+ NL)
       (block <$> zip (SearchResults.documents r) (SearchResults.metadata r)),
     CourseSearchTool.mk (CourseSearchTool.store self)
       (source_of self
          <$> (zip (SearchResults.documents r) (SearchResults.metadata r)).*2)).
Proof.
  unfold CourseSearchTool._format_results.
  destruct (format_rows_spec self
              (zip (SearchResults.documents r) (SearchResults.metadata r))
              (CourseSearchTool.mk_locals [] [] ∅) (cache_ok_empty self))
    as (cache & -> & _).
  done.
Qed.

(** What [execute] does once the store has answered without an error and
    with at least one document. *)
Lemma execute_found self query course_name lesson_number r :
  search (CourseSearchTool.store self) query course_name lesson_number = Return r →
  str_truthy (SearchResults.error r) = false →
  SearchResults.is_empty r = false →
  CourseSearchTool.execute self query course_name lesson_number
  = (Return (join (NL +:+ NL)
       (block <$> zip (SearchResults.documents r) (SearchResults.metadata r))),
     CourseSearchTool.mk (CourseSearchTool.store self)
       (source_of self
          <$> (zip (SearchResults.documents r) (SearchResults.metadata r)).*2)).
Proof.
  intros Hs He Hne. unfold CourseSearchTool.execute.
  by rewrite Hs, He, Hne, format_results_spec.
Qed.

Lemma is_empty_false r :
  SearchResults.documents r ≠ [] → SearchResults.is_empty r = false.
Proof. unfold SearchResults.is_empty. by destruct (SearchResults.documents r). Qed.

(** C1. When the store answers a search with N >= 1 aligned (document,
    metadata) pairs and no error, [execute] returns the N blocks of the
    pairs in input order, each the header line ["[title]"] or
    ["[title - Lesson n]"] followed by the document text, joined by a blank
    line; and the tool's source list becomes exactly N records in the same
    order, whatever it held before, with display text ["title"] or
    ["title - Lesson n"]. *)
Theorem search_formats_every_pair self query course_name lesson_number r :
  search (CourseSearchTool.store self) query course_name lesson_number = Return r →
  SearchResults.error r = None →
  SearchResults.aligned r →
  SearchResults.documents r ≠ [] →
  let rows := zip (SearchResults.documents r) (SearchResults.metadata r) in
  ∃ recorded,
    CourseSearchTool.execute self query course_name lesson_number
    = (Return (join (NL +:+ NL) (block <$> rows)),
       CourseSearchTool.mk (CourseSearchTool.store self) recorded)
    ∧ rows.*1 = SearchResults.documents r
    ∧ rows.*2 = SearchResults.metadata r
    ∧ length (block <$> rows) = length rows
    ∧ length recorded = length rows
    ∧ Source.display_text <$> recorded = row_label <$> SearchResults.metadata r
    ∧ Source.course_title <$> recorded = row_title <$> SearchResults.metadata r
    ∧ Source.lesson_number <$> recorded
      = Meta.lesson_number <$> SearchResults.metadata r.
Proof.
  intros Hs He Hal Hne rows. unfold SearchResults.aligned in Hal.
  assert (Hsnd : rows.*2 = SearchResults.metadata r)
    by (apply snd_zip; lia).
  assert (Hfst : rows.*1 = SearchResults.documents r)
    by (apply fst_zip; lia).
  exists (source_of self <$> rows.*2). split; [|repeat split].
  - apply execute_found; [done | by rewrite He | by apply is_empty_false].
  - done.
  - done.
  - by rewrite length_fmap.
  - by rewrite !length_fmap.
  - rewrite Hsnd, <- list_fmap_compose. done.
  - rewrite Hsnd, <- list_fmap_compose. done.
  - rewrite Hsnd, <- list_fmap_compose. done.
Qed.

Lemma search_formats_every_pair_witness :
  ∃ recorded,
    CourseSearchTool.execute (CourseSearchTool.mk mcp_store [old_source])
      (PStr "protocol") PNone PNone
    = (Return ("[MCP - Lesson 2]" +:+ NL +:+ "Protocol details"),
       CourseSearchTool.mk mcp_store recorded)
    ∧ Source.display_text <$> recorded = ["MCP - Lesson 2"].
Proof.
  destruct (search_formats_every_pair
              (CourseSearchTool.mk mcp_store [old_source])
              (PStr "protocol") PNone PNone mcp_hit)
    as (recorded & Hexec & _ & _ & _ & _ & Htext & _);
    [reflexivity | reflexivity | reflexivity | discriminate |].
  exists recorded. split; [exact Hexec | exact Htext].
Defined.

(** C2, as stated, fails on a result whose error field is set to the empty
    string: the test [if results.error] is false for it, so the call goes
    on to the "no results" message. *)
Lemma blank_error_not_returned :
  search (fixed_store blank_error (Return []) None) (PStr "q") PNone PNone
    = Return blank_error
  ∧ SearchResults.error blank_error = Some ""
  ∧ (CourseSearchTool.execute
       (CourseSearchTool.__init__ (fixed_store blank_error (Return []) None))
       (PStr "q") PNone PNone).1
    = Return "No relevant content found."
  ∧ (CourseSearchTool.execute
       (CourseSearchTool.__init__ (fixed_store blank_error (Return []) None))
       (PStr "q") PNone PNone).1
    ≠ Return "".
Proof. split_and!; by vm_compute. Qed.

(** C2 (amended). When the store's result has its error field set to a
    non-empty string, [execute] returns exactly that string, whatever the
    result's documents and metadata are, and leaves the tool, hence its
    source list, as it was. *)
Theorem search_returns_store_error self query course_name lesson_number r e :
  search (CourseSearchTool.store self) query course_name lesson_number = Return r →
  SearchResults.error r = Some e →
  e ≠ "" →
  CourseSearchTool.execute self query course_name lesson_number = (Return e, self).
Proof.
  intros Hs He Hne. unfold CourseSearchTool.execute. rewrite Hs, He. simpl.
  destruct (String.eqb_spec e ""); done.
Qed.

Lemma search_returns_store_error_witness :
  CourseSearchTool.execute
    (CourseSearchTool.mk (fixed_store failed_search (Return []) None) [old_source])
    (PStr "q") (PStr "MCP") (PInt 2)
  = (Return "Search error: store unavailable",
     CourseSearchTool.mk (fixed_store failed_search (Return []) None) [old_source]).
Proof.
  apply (search_returns_store_error _ _ _ _ failed_search);
    [reflexivity | reflexivity | discriminate].
Defined.




(** C5, as stated, fails on an argument map that has the key [tool_name]
    (or [self]): the dispatcher's own parameter then gets two values, and
    the call raises [TypeError] instead of returning the not-found text. *)
Lemma unknown_tool_with_parameter_key_raises :
  dict_get "missing_tool" (ToolManager.tools course_tools) = None
  ∧ (ToolManager.execute_tool course_tools "missing_tool"
       {["tool_name" := PStr "other"]}).1
    = Raise (TypeError "execute_tool() got multiple values for argument")
  ∧ (ToolManager.execute_tool course_tools "missing_tool"
       {["tool_name" := PStr "other"]}).1
    ≠ Return "Tool 'missing_tool' not found".
Proof. split_and!; by vm_compute. Qed.

(** C5 (amended). A name that is not registered is answered with the text
    ["Tool '<name>' not found"], for every argument map that has neither
    the key [self] nor the key [tool_name]; the call returns (it does not
    raise) and leaves the registry as it was. *)
Theorem unknown_tool_is_reported self tool_name kw :
  rebinds_parameter ["self"; "tool_name"] kw = false →
  dict_get tool_name (ToolManager.tools self) = None →
  ToolManager.execute_tool self tool_name kw
  = (Return ("Tool '" +:+ tool_name +:+ "' not found"), self).
Proof.
  intros Hkw Hnone. unfold ToolManager.execute_tool. by rewrite Hkw, Hnone.
Qed.

Lemma unknown_tool_is_reported_witness :
  ToolManager.execute_tool course_tools "missing_tool"
    {["query" := PStr "protocol"]}
  = (Return "Tool 'missing_tool' not found", course_tools).
Proof.
  apply (unknown_tool_is_reported course_tools "missing_tool"
           {["query" := PStr "protocol"]}); reflexivity.
Defined.

(** The outline of one course and of the whole catalog, on the sample
    course. *)
Example outline_single_course_example :
  CourseOutlineTool.execute
    (CourseOutlineTool.__init__ (fixed_store no_hits (Return [mcp_course]) (Some "MCP")))
    (PStr "mcp")
  = (Return ("## MCP" +:+ NL
             +:+ "**Course Link:** https://example.com/mcp" +:+ NL
             +:+ "**Instructor:** Ada" +:+ NL
             +:+ NL +:+ "**Lessons:**" +:+ NL
             +:+ "- Lesson 1: Intro" +:+ NL
             +:+ "- Lesson 2: [Protocol](https://example.com/mcp/2)"),
     CourseOutlineTool.mk (fixed_store no_hits (Return [mcp_course]) (Some "MCP"))
       [Source.mk "MCP" "MCP" None (Some "https://example.com/mcp")]).
Proof. by vm_compute. Qed.

Example outline_all_courses_example :
  CourseOutlineTool.execute (CourseOutlineTool.__init__ mcp_store) PNone
  = (Return ("# Available Courses" +:+ NL +:+ NL
             +:+ "## MCP" +:+ NL
             +:+ "**Link:** https://example.com/mcp" +:+ NL
             +:+ "**Instructor:** Ada" +:+ NL
             +:+ "**Total Lessons:** 2" +:+ NL
             +:+ "**Topics:** L1: Intro, L2: Protocol" +:+ NL),
     CourseOutlineTool.mk mcp_store
       [Source.mk "MCP" "MCP" None (Some "https://example.com/mcp")]).
Proof. by vm_compute. Qed.

(** C8. An outline call with a non-empty course name that the store cannot
    resolve, over a non-empty catalog, returns
    ["No course found matching '<name>'."] and leaves the tool, hence its
    source list, as it was. *)
Theorem outline_unresolved_name self course_name c cs :
  course_name ≠ "" →
  get_all_courses_metadata (CourseOutlineTool.store self) = Return (c :: cs) →
  _resolve_course_name (CourseOutlineTool.store self) (PStr course_name) = Return None →
  CourseOutlineTool.execute self (PStr course_name)
  = (Return ("No course found matching '" +:+ course_name +:+ "'."), self).
Proof.
  intros Hne Hall Hres. unfold CourseOutlineTool.execute. rewrite Hall. simpl.
  destruct (String.eqb_spec course_name ""); [done|]. simpl. by rewrite Hres.
Qed.

Lemma outline_unresolved_name_witness :
  CourseOutlineTool.execute (CourseOutlineTool.mk mcp_store [old_source]) (PStr "Rust")
  = (Return "No course found matching 'Rust'.",
     CourseOutlineTool.mk mcp_store [old_source]).
Proof.
  apply (outline_unresolved_name (CourseOutlineTool.mk mcp_store [old_source])
           "Rust" mcp_course []); [discriminate | reflexivity | reflexivity].
Defined.

(** The search tool answers with text whenever the store's search returns. *)
Lemma search_execute_returns self query course_name lesson_number r :
  search (CourseSearchTool.store self) query course_name lesson_number = Return r →
  ∃ text self',
    CourseSearchTool.execute self query course_name lesson_number = (Return text, self').
Proof.
  intros Hs. unfold CourseSearchTool.execute. rewrite Hs.
  destruct (str_truthy _); [by eauto|].
  destruct (SearchResults.is_empty r); [by eauto|].
  destruct (CourseSearchTool._format_results self r). by eauto.
Qed.

(** The outline tool answers with text whenever the catalog fetch and the
    name resolution return. *)
Lemma outline_execute_returns self course_name cs :
  get_all_courses_metadata (CourseOutlineTool.store self) = Return cs →
  (∀ c, ∃ t, _resolve_course_name (CourseOutlineTool.store self) c = Return t) →
  ∃ text self', CourseOutlineTool.execute self course_name = (Return text, self').
Proof.
  intros Hall Hres. unfold CourseOutlineTool.execute. rewrite Hall.
  destruct cs as [|c cs]; [by eauto|].
  destruct (truthy course_name).
  - destruct (Hres course_name) as [t ->].
    destruct (negb (str_truthy t)); [by eauto|].
    destruct (CourseOutlineTool.first_titled _ _); [|by eauto].
    destruct (CourseOutlineTool._format_single_course self _). by eauto.
  - destruct (CourseOutlineTool._format_all_courses self _). by eauto.
Qed.

(** C3, as stated, fails in three ways: an argument map with the key
    [self] or [tool_name] gives a parameter of the dispatcher two values and
    raises [TypeError], for a registered and for an unknown name alike;
    keyword arguments that do not bind to the signature of the tool's
    [execute] raise [TypeError]; and an exception of the store's catalog
    fetch leaves the outline tool uncaught. *)
Lemma dispatch_can_raise :
  (ToolManager.execute_tool course_tools "missing_tool" {["self" := PNone]}).1
    = Raise (TypeError "execute_tool() got multiple values for argument")
  ∧ (ToolManager.execute_tool course_tools "search_course_content" ∅).1
    = Raise (TypeError "execute() missing 1 required positional argument: 'query'")
  ∧ (¬ ∃ text,
       (ToolManager.execute_tool course_tools "search_course_content" ∅).1
       = Return text)
  ∧ (ToolManager.execute_tool
       (ToolManager.mk
          [("get_course_outline", Outline (CourseOutlineTool.__init__ broken_store))])
       "get_course_outline" ∅).1
    = Raise (StoreException "catalog unavailable").
Proof.
  split_and!; [by vm_compute | by vm_compute | | by vm_compute].
  intros [text H]. vm_compute in H. discriminate H.
Qed.

(** C3 (amended). Dispatch returns plain text and does not raise, for
    every tool name and every argument map that has neither the key [self]
    nor the key [tool_name], provided that, when the name is registered, it
    names one of the two course tools, the arguments bind to the signature
    of its [execute], and the store methods it calls outside a [try] return
    normally.  Store errors reported in the result's error field, not-found
    conditions and unknown tool names all come back as text. *)
Theorem dispatch_returns_text self tool_name kw :
  rebinds_parameter ["self"; "tool_name"] kw = false →
  (∀ tool, dict_get tool_name (ToolManager.tools self) = Some tool →
           well_called tool kw) →
  ∃ text, (ToolManager.execute_tool self tool_name kw).1 = Return text.
Proof.
  intros Hkw Hwell. unfold ToolManager.execute_tool. rewrite Hkw.
  destruct (dict_get tool_name (ToolManager.tools self)) as [tool|] eqn:Hget;
    [|by eauto].
  specialize (Hwell tool eq_refl).
  destruct tool as [o|o|o]; simpl in Hwell; [| |done].
  - destruct Hwell as (Hacc & [q Hq] & Hsearch).
    unfold execute, CourseSearchTool.call. rewrite Hacc, Hq. simpl.
    destruct (Hsearch q (default PNone (kw !! "course_name"))
                (default PNone (kw !! "lesson_number"))) as [r Hr].
    destruct (search_execute_returns o _ _ _ r Hr) as (text & o' & ->).
    by eauto.
  - destruct Hwell as (Hacc & [cs Hcs] & Hres).
    unfold execute, CourseOutlineTool.call. rewrite Hacc. simpl.
    destruct (outline_execute_returns o (default PNone (kw !! "course_name")) cs
                Hcs Hres) as (text & o' & ->).
    by eauto.
Qed.

Lemma dispatch_returns_text_witness :
  ∃ text,
    (ToolManager.execute_tool course_tools "search_course_content"
       {["query" := PStr "protocol"]}).1 = Return text.
Proof.
  apply (dispatch_returns_text course_tools "search_course_content"
           {["query" := PStr "protocol"]}); [reflexivity|].
  intros tool Hget. vm_compute in Hget. injection Hget as <-.
  split_and!; [by vm_compute | by eexists | by eexists].
Defined.

(** The two search loops are first-match searches. *)
Lemma first_course_titled_find course_title cs :
  CourseSearchTool.first_course_titled course_title cs
  = default Course.empty
      (List.find (λ c, bool_decide (Course.title c = Some course_title)) cs).
Proof.
  induction cs as [|c cs IH]; simpl; [done|].
  by destruct (bool_decide (Course.title c = Some course_title)).
Qed.

Lemma first_lesson_link_find ls n :
  CourseSearchTool.first_lesson_link ls n
  = List.find (λ l, bool_decide (Lesson.lesson_number l = Some n)) ls
      ≫= Lesson.lesson_link.
Proof.
  induction ls as [|l ls IH]; simpl; [done|].
  by destruct (bool_decide (Lesson.lesson_number l = Some n)).
Qed.

(** A catalog entry found under a title is a non-empty dict. *)
Lemma found_course_nonempty course_title cs c :
  List.find (λ c, bool_decide (Course.title c = Some course_title)) cs = Some c →
  Course.nonempty c = true.
Proof.
  intros Hfind. apply find_some in Hfind as [_ Ht].
  apply bool_decide_eq_true in Ht. unfold Course.nonempty. by rewrite Ht.
Qed.

(** The per-row lookup is the catalog lookup of the spec. *)
Lemma unmemoized_link_catalog self m n :
  Meta.lesson_number m = Some n →
  looked_up (row_title m) = true →
  unmemoized_link self m
  = catalog_link (CourseSearchTool.store self) (row_title m) n.
Proof.
  intros Hn Hlook. unfold unmemoized_link, catalog_link,
    CourseSearchTool._get_course_metadata. rewrite Hn, Hlook.
  destruct (get_all_courses_metadata (CourseSearchTool.store self)) as [cs|e];
    [|done].
  rewrite first_course_titled_find.
  destruct (List.find _ cs) as [c|] eqn:Hfind; simpl; [|done].
  rewrite (found_course_nonempty _ _ _ Hfind), first_lesson_link_find.
  by destruct (List.find _ (default [] (Course.lessons c))).
Qed.

Lemma unmemoized_link_fetch_raises self m e :
  get_all_courses_metadata (CourseSearchTool.store self) = Raise e →
  unmemoized_link self m = None.
Proof.
  intros Hraise. unfold unmemoized_link, CourseSearchTool._get_course_metadata.
  rewrite Hraise. simpl. destruct (Meta.lesson_number m); [|done].
  by destruct (looked_up (row_title m)).
Qed.

(** C7, as stated, fails on a row whose course title is the placeholder
    ["unknown"]: the catalog holds a course of that title with a linked
    lesson 1, yet no lookup is made and the recorded link is none. *)
Lemma placeholder_title_not_looked_up :
  catalog_link (fixed_store unknown_hit (Return [unknown_course]) None)
    (row_title (Meta.mk (Some "unknown") (Some 1%Z))) 1
    = Some "https://example.com/u/1"
  ∧ Source.lesson_link
      <$> CourseSearchTool.last_sources
            (CourseSearchTool.execute
               (CourseSearchTool.__init__
                  (fixed_store unknown_hit (Return [unknown_course]) None))
               (PStr "welcome") PNone PNone).2
    = [None].
Proof. split; by vm_compute. Qed.

(** C7 (amended). For every row of a non-empty search result that has a
    lesson number and whose course title is neither empty nor the
    placeholder ["unknown"], the recorded source's lesson link is the link
    of the first lesson with that number inside the first catalog record
    with that title, and none when that course or lesson is not found or
    when the catalog fetch raises; for the other rows it is none.  The
    fetch's exception never leaves [execute], which returns text; and the
    sources recorded with the per-title cache are those of a lookup made
    afresh for every row. *)
Theorem search_links_from_catalog self query course_name lesson_number r :
  search (CourseSearchTool.store self) query course_name lesson_number = Return r →
  SearchResults.error r = None →
  SearchResults.aligned r →
  SearchResults.documents r ≠ [] →
  ∃ text recorded,
    CourseSearchTool.execute self query course_name lesson_number
    = (Return text, CourseSearchTool.mk (CourseSearchTool.store self) recorded)
    ∧ recorded = source_of self <$> SearchResults.metadata r
    ∧ (∀ i m, SearchResults.metadata r !! i = Some m →
         ∃ src, recorded !! i = Some src
           ∧ Source.lesson_link src
             = match Meta.lesson_number m with
               | Some n =>
                   if looked_up (row_title m)
                   then catalog_link (CourseSearchTool.store self) (row_title m) n
                   else None
               | None => None
               end)
    ∧ (∀ e, get_all_courses_metadata (CourseSearchTool.store self) = Raise e →
         Forall (λ src, Source.lesson_link src = None) recorded).
Proof.
  intros Hs He Hal Hne. unfold SearchResults.aligned in Hal.
  do 2 eexists. split; [|split_and!].
  - apply (execute_found _ _ _ _ r); [done | by rewrite He | by apply is_empty_false].
  - rewrite snd_zip by lia. done.
  - intros i m Hm. rewrite snd_zip by lia.
    exists (source_of self m). split.
    + by rewrite list_lookup_fmap, Hm.
    + simpl. destruct (Meta.lesson_number m) as [n|] eqn:Hn.
      * destruct (looked_up (row_title m)) eqn:Hlook.
        -- by apply unmemoized_link_catalog.
        -- unfold unmemoized_link. by rewrite Hn, Hlook.
      * unfold unmemoized_link. by rewrite Hn.
  - intros e Hraise. rewrite snd_zip by lia.
    apply Forall_fmap, Forall_forall. intros m _. simpl.
    by apply (unmemoized_link_fetch_raises _ _ e).
Qed.

Lemma search_links_from_catalog_witness :
  ∃ text recorded,
    CourseSearchTool.execute (CourseSearchTool.__init__ (fixed_store two_hits
        (Return [mcp_course]) None)) (PStr "protocol") PNone PNone
    = (Return text, CourseSearchTool.mk (fixed_store two_hits
        (Return [mcp_course]) None) recorded)
    ∧ Source.lesson_link <$> recorded = [Some "https://example.com/mcp/2"; None].
Proof.
  destruct (search_links_from_catalog
              (CourseSearchTool.__init__
                 (fixed_store two_hits (Return [mcp_course]) None))
              (PStr "protocol") PNone PNone two_hits)
    as (text & recorded & Hexec & -> & _);
    [reflexivity | reflexivity | reflexivity | discriminate |].
  exists text, (source_of (CourseSearchTool.__init__
                  (fixed_store two_hits (Return [mcp_course]) None))
                <$> SearchResults.metadata two_hits).
  split; [exact Hexec | by vm_compute].
Defined.

(** ** The registry *)

Section dict_facts.
Context {V : Type}.
Implicit Types (d : list (string * V)) (k : string) (v : V).

Lemma keys_dict_set k v d :
  keys (dict_set k v d) = if decide (k ∈ keys d) then keys d else keys d ++ [k].
Proof.
  induction d as [|[k' v'] d IH]; [done|].
  change (keys ((k', v') :: d)) with (k' :: keys d). cbn [dict_set].
  destruct (decide (k = k')) as [->|Hne].
  - by rewrite decide_True by (by left).
  - change (keys ((k', v') :: dict_set k v d)) with (k' :: keys (dict_set k v d)).
    rewrite IH. destruct (decide (k ∈ keys d)) as [Hin|Hin].
    + by rewrite decide_True by (by right).
    + rewrite decide_False; [done|]. by intros [?|?]%elem_of_cons.
Qed.

Lemma dict_get_dict_set k k' v d :
  dict_get k' (dict_set k v d) = if decide (k' = k) then Some v else dict_get k' d.
Proof.
  induction d as [|[k0 v0] d IH]; simpl.
  - by repeat case_decide.
  - destruct (decide (k = k0)) as [->|Hne]; simpl.
    + by repeat case_decide.
    + rewrite IH. repeat case_decide; congruence.
Qed.

(** With distinct keys, the values in order are the lookups of the keys. *)
Lemma values_by_keys d :
  NoDup (keys d) → Some <$> values d = (λ k, dict_get k d) <$> keys d.
Proof.
  induction d as [|[k v] d IH]; [done|].
  change (keys ((k, v) :: d)) with (k :: keys d).
  change (values ((k, v) :: d)) with (v :: values d).
  intros Hnd. apply NoDup_cons in Hnd as [Hk Hnd].
  rewrite !fmap_cons, (IH Hnd). cbn [dict_get].
  rewrite decide_True by done. f_equal.
  apply list_fmap_ext. intros i k' Hk'.
  destruct (decide (k' = k)) as [->|]; [|done].
  exfalso. apply Hk. by eapply list_elem_of_lookup_2.
Qed.
End dict_facts.

Lemma first_occurrences_elem x l : x ∈ first_occurrences l ↔ x ∈ l.
Proof.
  induction l as [|y l IH]; [done|]. cbn [first_occurrences].
  rewrite !elem_of_cons, list_elem_of_filter, IH.
  destruct (decide (x = y)); intuition.
Qed.

Lemma first_occurrences_NoDup l : NoDup (first_occurrences l).
Proof.
  induction l as [|y l IH]; [constructor|]. cbn [first_occurrences].
  apply NoDup_cons. split.
  - rewrite list_elem_of_filter. intros [Hne _]. by apply Hne.
  - by apply NoDup_filter.
Qed.

Lemma first_occurrences_snoc l x :
  first_occurrences (l ++ [x])
  = if decide (x ∈ l) then first_occurrences l else first_occurrences l ++ [x].
Proof.
  induction l as [|y l IH]; [done|].
  rewrite <- app_comm_cons. cbn [first_occurrences]. rewrite IH.
  destruct (decide (x = y)) as [->|Hne].
  - rewrite (decide_True (P := y ∈ y :: l)) by (by left).
    destruct (decide (y ∈ l)); [done|].
    rewrite filter_app, filter_cons_False, filter_nil, app_nil_r; [done|].
    by intros ?.
  - destruct (decide (x ∈ l)) as [Hin|Hin].
    + by rewrite decide_True by (by right).
    + rewrite decide_False by (by intros [?|?]%elem_of_cons).
      by rewrite filter_app, filter_cons_True, filter_nil.
Qed.

(** The number of distinct names of a list. *)
Lemma first_occurrences_length l :
  length (first_occurrences l) = size (list_to_set l : gset string).
Proof.
  rewrite <- (size_list_to_set (C := gset string)) by apply first_occurrences_NoDup.
  f_equal. apply set_eq. intros x.
  by rewrite !elem_of_list_to_set, first_occurrences_elem.
Qed.

Lemma register_all_snoc self ts tool :
  ToolManager.register_all self (ts ++ [tool])
  = match ToolManager.register_all self ts with
    | Return self => ToolManager.register_tool self tool
    | Raise e => Raise e
    end.
Proof.
  revert self. induction ts as [|t ts IH]; intros self; simpl.
  - by destruct (ToolManager.register_tool self tool).
  - destruct (ToolManager.register_tool self t); [apply IH | done].
Qed.

Lemma register_named self tool :
  named tool →
  ToolManager.register_tool self tool
  = Return (ToolManager.mk (dict_set (tool_name tool) tool (ToolManager.tools self))).
Proof. intros Hn. unfold ToolManager.register_tool, named in *. by rewrite Hn. Qed.

Lemma last_named_snoc n ts tool :
  last_named n (ts ++ [tool])
  = if decide (n = tool_name tool) then Some tool else last_named n ts.
Proof.
  unfold last_named. rewrite filter_app.
  destruct (decide (tool_name tool = n)) as [<-|Hne].
  - rewrite decide_True by done. rewrite filter_cons_True by done.
    by rewrite filter_nil, last_snoc.
  - rewrite decide_False by done. rewrite filter_cons_False by done.
    by rewrite filter_nil, app_nil_r.
Qed.

(** The registry built by a sequence of registrations of named tools. *)
Lemma register_all_spec ts :
  Forall named ts →
  ∃ self,
    ToolManager.register_all ToolManager.__init__ ts = Return self
    ∧ keys (ToolManager.tools self) = first_occurrences (tool_name <$> ts)
    ∧ ∀ n, dict_get n (ToolManager.tools self) = last_named n ts.
Proof.
  induction ts as [|tool ts IH] using rev_ind; intros Hall.
  - exists ToolManager.__init__. by split_and!.
  - apply Forall_app in Hall as [Hts Htool].
    apply (Forall_inv (P := named)) in Htool.
    destruct (IH Hts) as (self & Hreg & Hkeys & Hget).
    eexists. rewrite register_all_snoc, Hreg, (register_named _ _ Htool).
    split_and!; [done | |]; cbn [ToolManager.tools].
    + rewrite keys_dict_set, Hkeys, fmap_app.
      change (tool_name <$> [tool]) with [tool_name tool].
      rewrite first_occurrences_snoc.
      destruct (decide (tool_name tool ∈ first_occurrences (tool_name <$> ts)))
        as [Hin|Hin];
        destruct (decide (tool_name tool ∈ tool_name <$> ts)) as [Hin'|Hin'];
        try done.
      * exfalso. by apply Hin', first_occurrences_elem.
      * exfalso. by apply Hin, first_occurrences_elem.
    + intros n. by rewrite dict_get_dict_set, last_named_snoc, Hget.
Qed.

Lemma last_named_name n ts tool : last_named n ts = Some tool → tool_name tool = n.
Proof.
  unfold last_named. intros Hlast. apply last_Some_elem_of in Hlast.
  by apply list_elem_of_filter in Hlast as [? _].
Qed.

Lemma length_get_tool_definitions self :
  length (ToolManager.get_tool_definitions self) = length (keys (ToolManager.tools self)).
Proof.
  unfold ToolManager.get_tool_definitions, values, keys. by rewrite !length_fmap.
Qed.

(** C6. Registering a sequence of tools whose definitions carry non-empty
    names, from an empty registry, succeeds; the definitions then listed
    are one per distinct name, in the order in which the names were first
    registered, each being the definition of the tool registered last under
    its name; registering again under a name already present replaces the
    tool and does not change the count; and registering a tool whose
    definition has no name, or an empty one, raises [ValueError]. *)
Theorem registry_lists_unique_names ts :
  Forall named ts →
  ∃ self,
    ToolManager.register_all ToolManager.__init__ ts = Return self
    ∧ tool_name <$> values (ToolManager.tools self)
      = first_occurrences (tool_name <$> ts)
    ∧ NoDup (tool_name <$> values (ToolManager.tools self))
    ∧ length (ToolManager.get_tool_definitions self)
      = size (list_to_set (tool_name <$> ts) : gset string)
    ∧ Some <$> ToolManager.get_tool_definitions self
      = (λ n, get_tool_definition <$> last_named n ts)
          <$> first_occurrences (tool_name <$> ts)
    ∧ (∀ tool, named tool → tool_name tool ∈ tool_name <$> ts →
         ∃ self',
           ToolManager.register_tool self tool = Return self'
           ∧ length (ToolManager.get_tool_definitions self')
             = length (ToolManager.get_tool_definitions self)
           ∧ dict_get (tool_name tool) (ToolManager.tools self') = Some tool)
    ∧ (∀ tool, ¬ named tool →
         ToolManager.register_tool self tool
         = Raise (ValueError "Tool must have a 'name' in its definition")).
Proof.
  intros Hall. destruct (register_all_spec ts Hall) as (self & Hreg & Hkeys & Hget).
  assert (Hnd : NoDup (keys (ToolManager.tools self)))
    by (rewrite Hkeys; apply first_occurrences_NoDup).
  assert (Hvals : Some <$> values (ToolManager.tools self)
                  = (λ n, last_named n ts) <$> first_occurrences (tool_name <$> ts)).
  { rewrite (values_by_keys _ Hnd), Hkeys. by apply list_fmap_ext. }
  assert (Hnames : tool_name <$> values (ToolManager.tools self)
                   = keys (ToolManager.tools self)).
  { apply list_eq. intros i. rewrite list_lookup_fmap.
    assert (Hi := f_equal (λ l, l !! i) Hvals). simpl in Hi.
    rewrite !list_lookup_fmap, <- Hkeys in Hi.
    destruct (values (ToolManager.tools self) !! i) as [t|],
      (keys (ToolManager.tools self) !! i) as [k|]; simpl in *; try done.
    injection Hi as Hi. symmetry in Hi. by rewrite (last_named_name _ _ _ Hi). }
  exists self. split_and!.
  - done.
  - by rewrite Hnames.
  - by rewrite Hnames.
  - by rewrite length_get_tool_definitions, Hkeys, first_occurrences_length.
  - unfold ToolManager.get_tool_definitions.
    rewrite <- list_fmap_compose.
    change (Some ∘ get_tool_definition) with (fmap (M := option) get_tool_definition ∘ Some).
    rewrite list_fmap_compose, Hvals, <- list_fmap_compose. done.
  - intros tool Hn Hin. eexists. rewrite (register_named _ _ Hn).
    split_and!; [done | |].
    + rewrite !length_get_tool_definitions. cbn [ToolManager.tools].
      rewrite keys_dict_set, decide_True; [done|].
      by rewrite Hkeys, first_occurrences_elem.
    + cbn [ToolManager.tools]. by rewrite dict_get_dict_set, decide_True.
  - intros tool Hn. unfold ToolManager.register_tool, named in *.
    by destruct (str_truthy _).
Qed.

Lemma registry_lists_unique_names_witness :
  ∃ self,
    ToolManager.register_all ToolManager.__init__
      [ plain_tool (Some "a"); Search (CourseSearchTool.__init__ mcp_store);
        Other (OtherTool.mk (ToolDefinition.mk (Some "a") "second" [] [])
                 (λ _ s, (Return "two", s)) (Some [])) ]
    = Return self
    ∧ tool_name <$> values (ToolManager.tools self) = ["a"; "search_course_content"]
    ∧ ToolDefinition.description <$> ToolManager.get_tool_definitions self
      = ["second";
         "Search course materials with smart course name matching and lesson filtering"].
Proof.
  destruct (registry_lists_unique_names
              [ plain_tool (Some "a"); Search (CourseSearchTool.__init__ mcp_store);
                Other (OtherTool.mk (ToolDefinition.mk (Some "a") "second" [] [])
                         (λ _ s, (Return "two", s)) (Some [])) ])
    as (self & Hreg & Hnames & _).
  - repeat constructor.
  - exists self. vm_compute in Hreg. injection Hreg as <-.
    split_and!; reflexivity.
Defined.

Lemma last_sources_reset_tool tool :
  last_sources (ToolManager.reset_tool tool) = (λ _, []) <$> last_sources tool.
Proof.
  unfold ToolManager.reset_tool.
  destruct tool as [o|o|[d f [s|]]]; reflexivity.
Qed.

Lemma reset_tool_idempotent tool :
  ToolManager.reset_tool (ToolManager.reset_tool tool) = ToolManager.reset_tool tool.
Proof.
  unfold ToolManager.reset_tool.
  destruct tool as [o|o|[d f [s|]]]; reflexivity.
Qed.

Lemma first_last_sources_reset vs :
  ToolManager.first_last_sources (ToolManager.reset_tool <$> vs) = [].
Proof.
  induction vs as [|tool vs IH]; [done|].
  rewrite fmap_cons. cbn [ToolManager.first_last_sources].
  rewrite last_sources_reset_tool. by destruct (last_sources tool).
Qed.

Lemma values_reset_sources self :
  values (ToolManager.tools (ToolManager.reset_sources self))
  = ToolManager.reset_tool <$> values (ToolManager.tools self).
Proof.
  unfold ToolManager.reset_sources, values. cbn [ToolManager.tools].
  rewrite <- !list_fmap_compose. apply list_fmap_ext. by intros i [k t] _.
Qed.

Lemma keys_reset_sources self :
  keys (ToolManager.tools (ToolManager.reset_sources self))
  = keys (ToolManager.tools self).
Proof.
  unfold ToolManager.reset_sources, keys. cbn [ToolManager.tools].
  rewrite <- !list_fmap_compose. apply list_fmap_ext. by intros i [k t] _.
Qed.

(** C9. After [reset_sources], whatever the registry held,
    [get_last_sources] returns the empty list; the reset turns the source
    list of every tool that tracks sources into the empty list, populated
    or not, under the same names; and resetting twice is resetting once. *)
Theorem reset_then_collect_is_empty self :
  ToolManager.get_last_sources (ToolManager.reset_sources self) = []
  ∧ keys (ToolManager.tools (ToolManager.reset_sources self))
    = keys (ToolManager.tools self)
  ∧ last_sources <$> values (ToolManager.tools (ToolManager.reset_sources self))
    = (λ tool, (λ _, []) <$> last_sources tool) <$> values (ToolManager.tools self)
  ∧ ToolManager.reset_sources (ToolManager.reset_sources self)
    = ToolManager.reset_sources self.
Proof.
  split_and!.
  - unfold ToolManager.get_last_sources.
    by rewrite values_reset_sources, first_last_sources_reset.
  - apply keys_reset_sources.
  - rewrite values_reset_sources, <- list_fmap_compose.
    apply list_fmap_ext. intros i tool _. apply last_sources_reset_tool.
  - unfold ToolManager.reset_sources. cbn [ToolManager.tools]. f_equal.
    rewrite <- list_fmap_compose. apply list_fmap_ext. intros i [k tool] _.
    simpl. by rewrite reset_tool_idempotent.
Qed.

Lemma first_last_sources_find vs :
  ToolManager.first_last_sources vs
  = match List.find has_sources vs with
    | Some tool => default [] (last_sources tool)
    | None => []
    end.
Proof.
  induction vs as [|tool vs IH]; [done|].
  cbn [ToolManager.first_last_sources List.find]. unfold has_sources at 1.
  destruct (last_sources tool) as [[|s l]|] eqn:Hsrc; [done | | done].
  by rewrite Hsrc.
Qed.

(** C10. [get_last_sources] returns the source list of the first tool, in
    the registry's order, whose source list is non-empty, and the empty list
    when there is none.  A tool without the source-tracking attribute never
    counts as having sources and is left as it is by [reset_sources]; both
    operations are total functions of the registry, so neither can raise. *)
Theorem collect_returns_first_nonempty self :
  ToolManager.get_last_sources self
  = match List.find has_sources (values (ToolManager.tools self)) with
    | Some tool => default [] (last_sources tool)
    | None => []
    end
  ∧ (∀ tool, last_sources tool = None →
       has_sources tool = false ∧ ToolManager.reset_tool tool = tool)
  ∧ values (ToolManager.tools (ToolManager.reset_sources self))
    = ToolManager.reset_tool <$> values (ToolManager.tools self).
Proof.
  split_and!.
  - apply first_last_sources_find.
  - intros tool Hnone. unfold has_sources, ToolManager.reset_tool.
    by rewrite Hnone.
  - apply values_reset_sources.
Qed.

Lemma collect_returns_first_nonempty_witness :
  ToolManager.get_last_sources tracked_tools = [old_source]
  ∧ ToolManager.reset_tool (plain_tool (Some "plain")) = plain_tool (Some "plain").
Proof.
  destruct (collect_returns_first_nonempty tracked_tools) as (Hget & Hplain & _).
  split; [rewrite Hget; reflexivity | apply Hplain; reflexivity].
Defined.

(** * Further properties of the module *)

(** ** The outline tool *)

Lemma lesson_line_spec lines lesson :
  CourseOutlineTool.lesson_line lines lesson = lines ++ [lesson_bullet lesson].
Proof.
  unfold CourseOutlineTool.lesson_line, lesson_bullet.
  destruct (Lesson.lesson_link lesson) as [link|]; simpl; [|done].
  by destruct (negb (link =? "")%string).
Qed.

Lemma fold_lesson_line lessons : ∀ lines,
  fold_left CourseOutlineTool.lesson_line lessons lines
  = lines ++ (lesson_bullet <$> lessons).
Proof.
  induction lessons as [|lesson lessons IH]; intros lines.
  - by rewrite app_nil_r.
  - cbn [fold_left]. rewrite IH, lesson_line_spec, fmap_cons.
    by rewrite <- app_assoc.
Qed.

Lemma format_single_course_spec self course :
  CourseOutlineTool._format_single_course self course
  = (join NL (course_outline course),
     CourseOutlineTool.mk (CourseOutlineTool.store self) [course_source course]).
Proof.
  unfold CourseOutlineTool._format_single_course, course_outline, course_source.
  f_equal. f_equal.
  destruct (default [] (Course.lessons course)) as [|lesson lessons].
  - destruct (str_truthy (Course.course_link course)),
      (str_truthy (Course.instructor course)); by rewrite <- ?app_assoc.
  - rewrite fold_lesson_line.
    destruct (str_truthy (Course.course_link course)),
      (str_truthy (Course.instructor course)); by rewrite <- ?app_assoc.
Qed.

Lemma course_summary_spec lines sources course :
  CourseOutlineTool.course_summary (lines, sources) course
  = (lines ++ course_section course, sources ++ [course_source course]).
Proof.
  unfold CourseOutlineTool.course_summary, course_section, course_source.
  f_equal.
  destruct (default [] (Course.lessons course)) as [|lesson lessons];
    destruct (str_truthy (Course.course_link course));
    try destruct (bool_decide (3 < length (lesson :: lessons)));
    by rewrite <- ?app_assoc.
Qed.

Lemma fold_course_summary courses : ∀ lines sources,
  fold_left CourseOutlineTool.course_summary courses (lines, sources)
  = (lines ++ concat (course_section <$> courses),
     sources ++ (course_source <$> courses)).
Proof.
  induction courses as [|course courses IH]; intros lines sources.
  - by rewrite !app_nil_r.
  - cbn [fold_left]. rewrite course_summary_spec, IH, fmap_cons.
    cbn [concat]. by rewrite <- !app_assoc.
Qed.


(** With an empty catalog the outline tool answers with the fixed
    "no courses" text whatever the course name is; it records nothing and
    does not consult the name resolution. *)
Theorem outline_empty_catalog self course_name :
  get_all_courses_metadata (CourseOutlineTool.store self) = Return [] →
  CourseOutlineTool.execute self course_name
  = (Return "No courses available in the knowledge base.", self).
Proof. intros Hall. unfold CourseOutlineTool.execute. by rewrite Hall. Qed.

Lemma outline_empty_catalog_witness :
  CourseOutlineTool.execute
    (CourseOutlineTool.mk (fixed_store no_hits (Return []) None) [old_source])
    (PStr "MCP")
  = (Return "No courses available in the knowledge base.",
     CourseOutlineTool.mk (fixed_store no_hits (Return []) None) [old_source]).
Proof. apply outline_empty_catalog. reflexivity. Defined.

(** X1. Called without a course name, or with an empty one, over a
    non-empty catalog, the outline tool returns the heading followed by the
    section of every course in catalog order, and replaces its source list
    by one citation per course in the same order, each with the course's
    title, no lesson number and the course link; the name resolution is not
    consulted. *)
Theorem outline_lists_every_course self course_name c cs :
  truthy course_name = false →
  get_all_courses_metadata (CourseOutlineTool.store self) = Return (c :: cs) →
  CourseOutlineTool.execute self course_name
  = (Return (join NL (("# Available Courses" +:+ NL)
                      :: concat (course_section <$> c :: cs))),
     CourseOutlineTool.mk (CourseOutlineTool.store self)
       (course_source <$> c :: cs)).
Proof.
  intros Hname Hall. unfold CourseOutlineTool.execute. rewrite Hall, Hname.
  unfold CourseOutlineTool._format_all_courses. by rewrite fold_course_summary.
Qed.

Lemma outline_lists_every_course_witness :
  ∃ text,
    CourseOutlineTool.execute
      (CourseOutlineTool.mk
         (fixed_store no_hits (Return [mcp_course; rag_course]) None) [old_source])
      (PStr "")
    = (Return text,
       CourseOutlineTool.mk
         (fixed_store no_hits (Return [mcp_course; rag_course]) None)
         [ Source.mk "MCP" "MCP" None (Some "https://example.com/mcp");
           Source.mk "RAG" "RAG" None None ]).
Proof.
  eexists.
  apply (outline_lists_every_course
           (CourseOutlineTool.mk
              (fixed_store no_hits (Return [mcp_course; rag_course]) None)
              [old_source])
           (PStr "") mcp_course [rag_course]); reflexivity.
Defined.





(** The two outline views on a sample course with a lesson 0, a lesson
    without a title, one without a number, and more than three lessons. *)
Example course_outline_example :
  course_outline rag_course
  = [ "## RAG"; NL +:+ "**Lessons:**";
      "- Lesson 0: Welcome"; "- Lesson 1: Chunking"; "- Lesson 2: Untitled";
      "- Lesson ?: [Retrieval](https://example.com/rag/3)";
      "- Lesson 4: Evaluation" ].
Proof. by vm_compute. Qed.

Example course_section_example :
  course_section rag_course
  = [ "## RAG"; "**Instructor:** Unknown"; "**Total Lessons:** 5";
      "**Topics:** L0: Welcome, L1: Chunking, L2: Untitled";
      "*... and 2 more lessons*"; "" ].
Proof. by vm_compute. Qed.

(** ** The search tool *)

(** X4. [_get_course_metadata] never raises.  It returns either the empty
    dict or a catalog entry whose title is the requested one; it returns
    such an entry whenever the catalog has one, and the empty dict whenever
    the catalog fetch raises. *)
Theorem get_course_metadata_sound self course_title :
  (CourseSearchTool._get_course_metadata self course_title = Course.empty
   ∨ (Course.title (CourseSearchTool._get_course_metadata self course_title)
        = Some course_title
      ∧ ∃ cs, get_all_courses_metadata (CourseSearchTool.store self) = Return cs
              ∧ CourseSearchTool._get_course_metadata self course_title ∈ cs))
  ∧ (∀ cs c, get_all_courses_metadata (CourseSearchTool.store self) = Return cs →
       c ∈ cs → Course.title c = Some course_title →
       Course.title (CourseSearchTool._get_course_metadata self course_title)
         = Some course_title)
  ∧ (∀ e, get_all_courses_metadata (CourseSearchTool.store self) = Raise e →
       CourseSearchTool._get_course_metadata self course_title = Course.empty).
Proof.
  unfold CourseSearchTool._get_course_metadata.
  destruct (get_all_courses_metadata (CourseSearchTool.store self)) as [cs|e].
  - rewrite first_course_titled_find.
    destruct (List.find _ cs) as [found|] eqn:Hfind; simpl.
    + apply find_some in Hfind as [Hin Ht]. apply bool_decide_eq_true in Ht.
      apply list_elem_of_In in Hin. split_and!; [right; by eauto | done | done].
    + split_and!; [by left | | done].
      intros cs' c [= <-] Hin Ht. apply list_elem_of_In in Hin.
      apply (find_none _ _ Hfind) in Hin. by apply bool_decide_eq_false in Hin.
  - split_and!; [by left | done | done].
Qed.

(** X5. [_format_results] pairs documents with metadata by position and
    stops at the shorter of the two lists: it records that many sources,
    keeps the store, and on a result without pairs returns the empty text
    and an empty source list. *)
Theorem format_results_truncates self r :
  length (CourseSearchTool.last_sources (CourseSearchTool._format_results self r).2)
    = length (SearchResults.documents r) `min` length (SearchResults.metadata r)
  ∧ CourseSearchTool.store (CourseSearchTool._format_results self r).2
    = CourseSearchTool.store self
  ∧ (SearchResults.documents r = [] ∨ SearchResults.metadata r = [] →
     CourseSearchTool._format_results self r
     = ("", CourseSearchTool.mk (CourseSearchTool.store self) [])).
Proof.
  rewrite format_results_spec. split_and!.
  - cbn [snd CourseSearchTool.last_sources].
    by rewrite !length_fmap, length_zip_with.
  - done.
  - intros [Hd|Hm].
    + by rewrite Hd.
    + rewrite Hm. by destruct (SearchResults.documents r).
Qed.

Lemma blocks_from_sources self docs : ∀ metas,
  block <$> zip docs metas
  = zip_with cited_block docs (source_of self <$> (zip docs metas).*2).
Proof.
  induction docs as [|doc docs IH]; intros [|m metas]; try done.
  cbn [zip_with fmap list_fmap]. f_equal. apply IH.
Qed.

(** X6. The answer text and the recorded sources of [_format_results]
    agree: the text is the documents in order, each under the header made
    of the display text of the source recorded at the same position, joined
    by blank lines. *)
Theorem answer_headers_are_source_labels self r :
  (CourseSearchTool._format_results self r).1
  = join (NL +:+ NL)
      (zip_with cited_block (SearchResults.documents r)
         (CourseSearchTool.last_sources (CourseSearchTool._format_results self r).2)).
Proof.
  rewrite format_results_spec. cbn [fst snd CourseSearchTool.last_sources].
  by rewrite <- blocks_from_sources.
Qed.

(** X7. The schema the search tool advertises is the signature of its
    [execute]: keyword arguments that fit the schema reach [execute] with
    the missing filters as [None]; any other keyword arguments raise
    [TypeError] before the store is queried, leaving the tool as it was. *)
Theorem search_schema_matches_signature o kw :
  if conforms (CourseSearchTool.get_tool_definition o) kw
  then ∃ query,
         kw !! "query" = Some query
         ∧ CourseSearchTool.call o kw
           = CourseSearchTool.execute o query
               (default PNone (kw !! "course_name"))
               (default PNone (kw !! "lesson_number"))
  else ∃ msg, CourseSearchTool.call o kw = (Raise (TypeError msg), o).
Proof.
  unfold conforms, CourseSearchTool.call.
  change ((ToolDefinition.properties (CourseSearchTool.get_tool_definition o)).*1)
    with ["query"; "course_name"; "lesson_number"].
  change (ToolDefinition.required (CourseSearchTool.get_tool_definition o))
    with ["query"].
  destruct (accepts _ kw); cbn [negb andb forallb]; [|by eauto].
  destruct (kw !! "query") as [query|] eqn:Hq.
  - rewrite (bool_decide_eq_true_2 (is_Some (Some query))) by (by eexists).
    cbn [andb]. by eauto.
  - rewrite (bool_decide_eq_false_2 (is_Some (@None pyval)))
      by (by intros [? ?]).
    cbn [andb]. by eauto.
Qed.

(** X8. The schema the outline tool advertises is the signature of its
    [execute]: keyword arguments with no key other than [course_name]
    reach [execute], a missing name being [None]; any other keyword
    arguments raise [TypeError] and leave the tool as it was. *)
Theorem outline_schema_matches_signature o kw :
  if conforms (CourseOutlineTool.get_tool_definition o) kw
  then CourseOutlineTool.call o kw
       = CourseOutlineTool.execute o (default PNone (kw !! "course_name"))
  else ∃ msg, CourseOutlineTool.call o kw = (Raise (TypeError msg), o).
Proof.
  unfold conforms, CourseOutlineTool.call.
  change ((ToolDefinition.properties (CourseOutlineTool.get_tool_definition o)).*1)
    with ["course_name"].
  change (ToolDefinition.required (CourseOutlineTool.get_tool_definition o))
    with (@nil string).
  destruct (accepts _ kw); cbn [negb andb forallb]; [done | by eauto].
Qed.

(** ** The registry *)

Section dict_more.
Context {V : Type}.
Implicit Types (d : list (string * V)) (k : string) (v : V).

Lemma dict_get_elem k v d : dict_get k d = Some v → (k, v) ∈ d.
Proof.
  induction d as [|[k' v'] d IH]; [done|]. cbn [dict_get].
  destruct (decide (k = k')) as [->|Hne].
  - intros [= ->]. by left.
  - intros Hget. right. by apply IH.
Qed.

Lemma dict_get_keys k v d : dict_get k d = Some v → k ∈ keys d.
Proof.
  intros Hget. apply dict_get_elem in Hget.
  apply list_elem_of_fmap. by exists (k, v).
Qed.

Lemma Forall_dict_set (P : string * V → Prop) k v d :
  Forall P d → P (k, v) → Forall P (dict_set k v d).
Proof.
  intros Hd Hkv. induction d as [|[k' v'] d IH]; cbn [dict_set].
  - by constructor.
  - apply Forall_cons in Hd as [Hhd Htl].
    destruct (decide (k = k')); constructor; auto.
Qed.

Lemma NoDup_keys_dict_set k v d : NoDup (keys d) → NoDup (keys (dict_set k v d)).
Proof.
  intros Hnd. rewrite keys_dict_set. destruct (decide (k ∈ keys d)); [done|].
  apply NoDup_app. split_and!; [done | | apply NoDup_singleton].
  intros x Hx ->%list_elem_of_singleton. done.
Qed.

(** Replacing the value of a present key by one with the same image under
    [f] leaves the images of the values unchanged. *)
Lemma values_dict_set_same {B} (f : V → B) k v v' d :
  dict_get k d = Some v → f v' = f v →
  f <$> values (dict_set k v' d) = f <$> values d.
Proof.
  intros Hget Hf. induction d as [|[k0 v0] d IH]; [done|].
  cbn [dict_get dict_set] in *. destruct (decide (k = k0)) as [->|Hne].
  - injection Hget as ->. unfold values. cbn. by rewrite Hf.
  - unfold values in *. cbn. by rewrite IH.
Qed.

Lemma dict_get_fmap {B} (f : V → B) k d :
  dict_get k (prod_map id f <$> d) = f <$> dict_get k d.
Proof.
  induction d as [|[k0 v0] d IH]; [done|]. cbn.
  by destruct (decide (k = k0)).
Qed.
End dict_more.

Lemma execute_keeps_definition tool kw :
  get_tool_definition (execute tool kw).2 = get_tool_definition tool.
Proof.
  destruct tool as [o|o|o]; unfold execute.
  - by destruct (CourseSearchTool.call o kw).
  - by destruct (CourseOutlineTool.call o kw).
  - by destruct (OtherTool.run o kw (OtherTool.last_sources o)).
Qed.

Lemma reset_tool_keeps_definition tool :
  get_tool_definition (ToolManager.reset_tool tool) = get_tool_definition tool.
Proof.
  unfold ToolManager.reset_tool. by destruct tool as [o|o|[d f [s|]]].
Qed.

(** The registry after a dispatch: the dispatched tool is put back under
    its name. *)
Lemma tools_after_dispatch self name kw tool :
  rebinds_parameter ["self"; "tool_name"] kw = false →
  dict_get name (ToolManager.tools self) = Some tool →
  ToolManager.execute_tool self name kw
  = ((execute tool kw).1,
     ToolManager.mk (dict_set name (execute tool kw).2 (ToolManager.tools self))).
Proof.
  intros Hkw Hget. unfold ToolManager.execute_tool. rewrite Hkw, Hget.
  by destruct (execute tool kw).
Qed.

(** A dispatch that does not reach a tool leaves the registry as it was. *)
Lemma tools_after_failed_dispatch self name kw :
  rebinds_parameter ["self"; "tool_name"] kw = true
  ∨ dict_get name (ToolManager.tools self) = None →
  (ToolManager.execute_tool self name kw).2 = self.
Proof.
  unfold ToolManager.execute_tool. intros [Hkw|Hget].
  - by rewrite Hkw.
  - rewrite Hget. by destruct (rebinds_parameter _ kw).
Qed.

(** X9. Dispatching a call, whatever its name, arguments and outcome,
    changes neither the registered names, nor their order, nor the
    definitions the registry lists. *)
Theorem dispatch_keeps_definitions self name kw :
  keys (ToolManager.tools (ToolManager.execute_tool self name kw).2)
    = keys (ToolManager.tools self)
  ∧ ToolManager.get_tool_definitions (ToolManager.execute_tool self name kw).2
    = ToolManager.get_tool_definitions self.
Proof.
  destruct (rebinds_parameter ["self"; "tool_name"] kw) eqn:Hkw;
    [by rewrite tools_after_failed_dispatch by (by left)|].
  destruct (dict_get name (ToolManager.tools self)) as [tool|] eqn:Hget.
  - rewrite (tools_after_dispatch _ _ _ _ Hkw Hget). cbn [snd ToolManager.tools].
    split.
    + rewrite keys_dict_set, decide_True; [done|]. by eapply dict_get_keys.
    + unfold ToolManager.get_tool_definitions. cbn [ToolManager.tools].
      apply (values_dict_set_same _ _ tool); [done|].
      apply execute_keeps_definition.
  - by rewrite tools_after_failed_dispatch by (by right).
Qed.

(** X10. A tool with a non-empty name in its definition can always be
    registered; afterwards a dispatch under that name, with an argument map
    that has neither the key [self] nor the key [tool_name], reaches this
    very tool; and every other name is bound as before. *)
Theorem register_then_dispatch self tool kw :
  named tool →
  rebinds_parameter ["self"; "tool_name"] kw = false →
  ∃ self',
    ToolManager.register_tool self tool = Return self'
    ∧ (ToolManager.execute_tool self' (tool_name tool) kw).1 = (execute tool kw).1
    ∧ ∀ n, n ≠ tool_name tool →
        dict_get n (ToolManager.tools self') = dict_get n (ToolManager.tools self).
Proof.
  intros Hn Hkw. eexists. rewrite (register_named _ _ Hn). split_and!; [done | |].
  - rewrite (tools_after_dispatch _ _ _ tool); [done | done |].
    cbn [ToolManager.tools]. by rewrite dict_get_dict_set, decide_True.
  - intros n Hne. cbn [ToolManager.tools].
    by rewrite dict_get_dict_set, decide_False.
Qed.

Lemma register_then_dispatch_witness :
  ∃ self',
    ToolManager.register_tool course_tools (plain_tool (Some "get_course_outline"))
      = Return self'
    ∧ (ToolManager.execute_tool self' "get_course_outline" ∅).1 = Return "ok".
Proof.
  destruct (register_then_dispatch course_tools
              (plain_tool (Some "get_course_outline")) ∅)
    as (self' & Hreg & Hrun & _); [reflexivity | reflexivity |].
  exists self'. split; [exact Hreg | exact Hrun].
Defined.

Lemma first_last_sources_none vs :
  Forall (λ t, has_sources t = false) vs → ToolManager.first_last_sources vs = [].
Proof.
  induction 1 as [|tool vs Htool _ IH]; [done|].
  cbn [ToolManager.first_last_sources]. unfold has_sources in Htool.
  by destruct (last_sources tool) as [[|s l]|].
Qed.

Lemma first_last_sources_dict_set d k t t' :
  Forall (λ t, has_sources t = false) (values d) →
  dict_get k d = Some t →
  ToolManager.first_last_sources (values (dict_set k t' d))
  = default [] (last_sources t').
Proof.
  induction d as [|[k0 t0] d IH]; [done|].
  change (values ((k0, t0) :: d)) with (t0 :: values d).
  intros [Ht0 Hd]%Forall_cons. cbn [dict_get dict_set].
  destruct (decide (k = k0)) as [->|Hne].
  - intros _. change (values ((k0, t') :: d)) with (t' :: values d).
    cbn [ToolManager.first_last_sources].
    rewrite (first_last_sources_none _ Hd).
    by destruct (last_sources t') as [[|s l]|].
  - intros Hget. change (values ((k0, t0) :: dict_set k t' d))
      with (t0 :: values (dict_set k t' d)).
    cbn [ToolManager.first_last_sources]. rewrite (IH Hd Hget).
    unfold has_sources in Ht0. by destruct (last_sources t0) as [[|s l]|].
Qed.

(** X11. The turn protocol composes: after [reset_sources], a dispatch
    followed by [get_last_sources] yields exactly the sources that the
    dispatched tool holds after the call, whatever the other tools held
    before the reset; it yields none if the tool tracks no sources, if the
    name is not registered, or if the argument map has the key [self] or
    [tool_name], in which case the call raises before a tool is reached. *)
Theorem clear_dispatch_collect self name kw :
  ToolManager.get_last_sources
    (ToolManager.execute_tool (ToolManager.reset_sources self) name kw).2
  = if rebinds_parameter ["self"; "tool_name"] kw then []
    else
      match dict_get name (ToolManager.tools self) with
      | Some tool =>
          default [] (last_sources (execute (ToolManager.reset_tool tool) kw).2)
      | None => []
      end.
Proof.
  assert (Hget : dict_get name (ToolManager.tools (ToolManager.reset_sources self))
                 = ToolManager.reset_tool <$> dict_get name (ToolManager.tools self))
    by apply dict_get_fmap.
  assert (Hnone : Forall (λ t, has_sources t = false)
                    (values (ToolManager.tools (ToolManager.reset_sources self)))).
  { rewrite values_reset_sources. apply Forall_fmap, Forall_forall.
    intros t _. unfold has_sources. simpl. rewrite last_sources_reset_tool.
    by destruct (last_sources t). }
  destruct (rebinds_parameter ["self"; "tool_name"] kw) eqn:Hkw.
  { rewrite tools_after_failed_dispatch by (by left).
    unfold ToolManager.get_last_sources. by apply first_last_sources_none. }
  destruct (dict_get name (ToolManager.tools self)) as [tool|].
  - rewrite (tools_after_dispatch (ToolManager.reset_sources self) name kw
               (ToolManager.reset_tool tool) Hkw Hget).
    unfold ToolManager.get_last_sources. cbn [snd ToolManager.tools].
    by apply (first_last_sources_dict_set _ _ (ToolManager.reset_tool tool)).
  - rewrite tools_after_failed_dispatch by (by right).
    unfold ToolManager.get_last_sources. by apply first_last_sources_none.
Qed.

Lemma register_tool_named self tool self' :
  ToolManager.register_tool self tool = Return self' →
  named tool
  ∧ self' = ToolManager.mk (dict_set (tool_name tool) tool (ToolManager.tools self)).
Proof.
  unfold ToolManager.register_tool, named, tool_name.
  destruct (str_truthy _); [|done]. by intros [= <-].
Qed.

Lemma registry_ok_init : registry_ok ToolManager.__init__.
Proof. split; constructor. Qed.

(** X12. The registry invariant -- distinct names, each tool filed under
    the non-empty name of its own definition -- holds for the empty
    registry and is kept by every operation: a successful registration, a
    dispatch whatever its outcome, and a reset of the sources. *)
Theorem registry_ok_preserved self :
  registry_ok self →
  (∀ tool self', ToolManager.register_tool self tool = Return self' →
                 registry_ok self')
  ∧ (∀ name kw, registry_ok (ToolManager.execute_tool self name kw).2)
  ∧ registry_ok (ToolManager.reset_sources self).
Proof.
  intros [Hnd Hall]. split_and!.
  - intros tool self' [Hn ->]%register_tool_named. split; cbn [ToolManager.tools].
    + by apply NoDup_keys_dict_set.
    + by apply Forall_dict_set.
  - intros name kw.
    destruct (rebinds_parameter ["self"; "tool_name"] kw) eqn:Hkw;
      [by rewrite tools_after_failed_dispatch by (by left)|].
    destruct (dict_get name (ToolManager.tools self)) as [tool|] eqn:Hget.
    + rewrite (tools_after_dispatch _ _ _ _ Hkw Hget).
      split; cbn [snd ToolManager.tools].
      * by apply NoDup_keys_dict_set.
      * apply Forall_dict_set; [done|].
        apply dict_get_elem in Hget. rewrite Forall_forall in Hall.
        destruct (Hall _ Hget) as [Hn Hname]. unfold named, tool_name in *.
        cbn [fst snd] in *. by rewrite execute_keeps_definition.
    + by rewrite tools_after_failed_dispatch by (by right).
  - split.
    + by rewrite keys_reset_sources.
    + unfold ToolManager.reset_sources. cbn [ToolManager.tools].
      apply Forall_fmap. eapply Forall_impl; [exact Hall|].
      intros [k t] [Hn Hname]. unfold named, tool_name in *. cbn in *.
      by rewrite reset_tool_keeps_definition.
Qed.

Lemma registry_ok_preserved_witness :
  registry_ok
    (ToolManager.execute_tool course_tools "get_course_outline" ∅).2
  ∧ registry_ok (ToolManager.reset_sources course_tools).
Proof.
  destruct (registry_ok_preserved course_tools) as (_ & Hrun & Hreset).
  - split; [by apply (bool_decide_unpack _) | repeat constructor].
  - split; [apply Hrun | exact Hreset].
Defined.

(** X13. The answer of the two course tools does not depend on the sources
    they recorded earlier: whatever list is put in [last_sources] before
    the call, the call returns, or raises, the same. *)
Theorem answers_ignore_recorded_sources tool l kw :
  course_tool tool = true →
  (execute (set_last_sources tool l) kw).1 = (execute tool kw).1.
Proof.
  destruct tool as [o|o|o]; [| |done]; intros _; unfold execute, set_last_sources.
  - unfold CourseSearchTool.call. destruct (negb (accepts _ kw)); [done|].
    destruct (kw !! "query") as [query|]; [|done].
    unfold CourseSearchTool.execute. cbn [CourseSearchTool.store].
    destruct (search _ _ _ _) as [r|e]; [|done].
    destruct (str_truthy _); [done|].
    destruct (SearchResults.is_empty r); [done|].
    by rewrite !format_results_spec.
  - unfold CourseOutlineTool.call. destruct (negb (accepts _ kw)); [done|].
    unfold CourseOutlineTool.execute. cbn [CourseOutlineTool.store].
    destruct (get_all_courses_metadata _) as [[|c cs]|e]; [done| |done].
    destruct (truthy _).
    + destruct (_resolve_course_name _ _) as [t|e]; [|done].
      destruct (negb (str_truthy t)); [done|].
      destruct (CourseOutlineTool.first_titled _ _); [|done].
      by rewrite !format_single_course_spec.
    + unfold CourseOutlineTool._format_all_courses.
      by rewrite fold_course_summary.
Qed.

Lemma answers_ignore_recorded_sources_witness :
  (execute (set_last_sources (Search (CourseSearchTool.__init__ mcp_store))
              [old_source]) {["query" := PStr "protocol"]}).1
  = (execute (Search (CourseSearchTool.__init__ mcp_store))
       {["query" := PStr "protocol"]}).1.
Proof. apply answers_ignore_recorded_sources. reflexivity. Defined.

(** X14. A call to one of the two course tools that raises -- because the
    keyword arguments do not bind, or because the store raised outside the
    lesson-link lookup -- leaves the tool, hence its source list, exactly
    as it was. *)
Theorem raising_call_changes_nothing tool kw e :
  course_tool tool = true →
  (execute tool kw).1 = Raise e →
  (execute tool kw).2 = tool.
Proof.
  destruct tool as [o|o|o]; [| |done]; intros _; unfold execute.
  - unfold CourseSearchTool.call. destruct (negb (accepts _ kw)); [done|].
    destruct (kw !! "query") as [query|]; [|done].
    unfold CourseSearchTool.execute.
    destruct (search _ _ _ _) as [r|e']; [|done].
    destruct (str_truthy _); [done|].
    destruct (SearchResults.is_empty r); [done|].
    by destruct (CourseSearchTool._format_results o r).
  - unfold CourseOutlineTool.call. destruct (negb (accepts _ kw)); [done|].
    unfold CourseOutlineTool.execute.
    destruct (get_all_courses_metadata _) as [[|c cs]|e']; [done| |done].
    destruct (truthy _).
    + destruct (_resolve_course_name _ _) as [t|e']; [|done].
      destruct (negb (str_truthy t)); [done|].
      destruct (CourseOutlineTool.first_titled _ _); [|done].
      by destruct (CourseOutlineTool._format_single_course o _).
    + by destruct (CourseOutlineTool._format_all_courses o _).
Qed.

Lemma raising_call_changes_nothing_witness :
  (execute (Outline (CourseOutlineTool.mk broken_store [old_source])) ∅).2
  = Outline (CourseOutlineTool.mk broken_store [old_source]).
Proof.
  apply (raising_call_changes_nothing
           (Outline (CourseOutlineTool.mk broken_store [old_source])) ∅
           (StoreException "catalog unavailable")); reflexivity.
Defined.
